(** * Scientific calculator: the reducers of [Calculator.tsx]

    A shallow embedding of the state transitions of
    [src/src/Calculator.tsx] (the functions passed to [setState]) and of
    the display formatter, followed by the properties of the
    specification that were checked against them.

    JavaScript strings are sequences of UTF-16 code units, numbers are
    IEEE 754 binary64 values (Rocq's primitive floats).  The mathjs
    evaluator and the number-to-string conversions of the JavaScript
    runtime are not part of the repository: they are parameters of the
    reducers that use them. *)

From Stdlib Require Import NArith ZArith List Bool String Ascii Lia.
From Stdlib Require Import Floats.
Import ListNotations.

Set Implicit Arguments.

(** ** JavaScript strings *)

(** A string is the list of its UTF-16 code units. *)
Definition jsstring : Type := list N.

Module JsString.

Definition t : Type := jsstring.

(** Decoding of UTF-8 source text into code units.  Every character of
    the source file lies in the Basic Multilingual Plane, so one, two
    and three byte sequences are enough; a four byte sequence would
    produce a surrogate pair. *)
Fixpoint utf16 (bytes : list N) : t :=
  match bytes with
  | [] => []
  | b0 :: rest =>
    if (b0 <? 128)%N then b0 :: utf16 rest
    else
      match rest with
      | [] => [b0]
      | b1 :: rest1 =>
        if (b0 <? 224)%N then
          (N.lor (N.shiftl (N.land b0 31) 6) (N.land b1 63)) :: utf16 rest1
        else
          match rest1 with
          | [] => [b0; b1]
          | b2 :: rest2 =>
            if (b0 <? 240)%N then
              (N.lor (N.shiftl (N.land b0 15) 12)
                 (N.lor (N.shiftl (N.land b1 63) 6) (N.land b2 63)))
                :: utf16 rest2
            else
              match rest2 with
              | [] => [b0; b1; b2]
              | b3 :: rest3 =>
                let cp :=
                  N.lor (N.shiftl (N.land b0 7) 18)
                    (N.lor (N.shiftl (N.land b1 63) 12)
                       (N.lor (N.shiftl (N.land b2 63) 6) (N.land b3 63))) in
                let v := (cp - 65536)%N in
                (55296 + N.shiftr v 10)%N :: (56320 + N.land v 1023)%N
                  :: utf16 rest3
              end
          end
      end
  end.

(** A string literal of the source, written as it is there. *)
Definition lit (s : string) : t :=
  utf16 (map N_of_ascii (list_ascii_of_string s)).

Fixpoint eqb (a b : t) : bool :=
  match a, b with
  | [], [] => true
  | x :: a', y :: b' => (x =? y)%N && eqb a' b'
  | _, _ => false
  end.

(** [s.length] *)
Definition length (s : t) : nat := List.length s.

(** [s.startsWith(p)] *)
Fixpoint startsWith (p s : t) : bool :=
  match p, s with
  | [], _ => true
  | x :: p', y :: s' => (x =? y)%N && startsWith p' s'
  | _ :: _, [] => false
  end.

(** [s.indexOf(p)], with [-1] when [p] does not occur. *)
Fixpoint indexOf_from (i : Z) (p s : t) : Z :=
  if startsWith p s then i
  else
    match s with
    | [] => (-1)%Z
    | _ :: s' => indexOf_from (i + 1)%Z p s'
    end.

Definition indexOf (p s : t) : Z := indexOf_from 0%Z p s.

(** [s.includes(p)] *)
Fixpoint includes (p s : t) : bool :=
  startsWith p s ||
  match s with
  | [] => false
  | _ :: s' => includes p s'
  end.

(** [s.slice(1)] *)
Definition slice1 (s : t) : t := List.tl s.

(** [s.slice(0, -1)] *)
Definition dropLast (s : t) : t := List.removelast s.

(** [s.replace(/p/g, r)] for a pattern [p] that is a literal, non-empty
    sequence of code units: the matches are found from left to right
    and do not overlap, and the replacement text is not scanned again.
    [skip] counts the code units of a match that are still to be
    passed over. *)
Fixpoint replaceAll_skip (skip : nat) (p r s : t) : t :=
  match s with
  | [] => []
  | c :: s' =>
    match skip with
    | S k => replaceAll_skip k p r s'
    | O =>
      if startsWith p s
      then r ++ replaceAll_skip (Nat.pred (List.length p)) p r s'
      else c :: replaceAll_skip O p r s'
    end
  end.

Definition replaceAll (p r s : t) : t :=
  match p with
  | [] => s
  | _ :: _ => replaceAll_skip O p r s
  end.

(** [0-9] *)
Definition isDigit (c : N) : bool := (48 <=? c)%N && (c <=? 57)%N.

(** [s.replace(/e(?![0-9])/g, r)]: every code unit [e] that is not
    followed by a decimal digit is replaced by [r]. *)
Fixpoint replace_e_not_digit (r s : t) : t :=
  match s with
  | [] => []
  | c :: s' =>
    if (c =? 101)%N
       && negb (match s' with [] => false | d :: _ => isDigit d end)
    then r ++ replace_e_not_digit r s'
    else c :: replace_e_not_digit r s'
  end.

End JsString.

(** A string literal of the source, written as it is there. *)
Definition lit (s : string) : jsstring := JsString.lit s.

(** ** Numbers *)

(** A JavaScript number is a binary64 value. *)
Definition number : Type := float.

(** The literal [1e-6] of the source is, as in JavaScript, the binary64
    value nearest to it. *)
#[warnings="-inexact-float"]
Definition tiny : number := 1e-6%float.

Definition huge : number := 1e15%float.

(** [Math.abs(x) > 1e15 || (Math.abs(x) < 1e-6 && x !== 0)], the test of
    [calculate] and of [formatDisplay]. *)
Definition outOfPlainRange (x : number) : bool :=
  (huge <? abs x)%float || ((abs x <? tiny)%float && negb (x =? 0)%float).

(** [pi.toString()] and [e.toString()] for the constants [pi] and [e]
    imported from mathjs (the binary64 values of [Math.PI] and
    [Math.E]). *)
Definition pi_toString : jsstring := lit "3.141592653589793".
Definition e_toString : jsstring := lit "2.718281828459045".

(** ** The JavaScript runtime and the evaluator *)

(** What [evaluate] of mathjs can do when it is called: return a number,
    return a value of another type (a complex number, a matrix, a
    boolean, ...; [toString] gives its rendering, or [None] when calling
    [toString] on it throws, as for [undefined]), or throw. *)
Inductive EvalResult : Type :=
| ReturnsNumber (result : number)
| ReturnsOther (rendering : option jsstring)
| Throws.

(** The capabilities the reducers take from outside the repository. *)
Record Runtime : Type := mkRuntime {
  (** [x.toString()] on a number *)
  numberToString : number -> jsstring;
  (** [x.toExponential(digits)] *)
  toExponential : number -> nat -> jsstring;
  (** [x.toPrecision(digits)] *)
  toPrecision : number -> nat -> jsstring;
  (** the number denoted by a decimal literal *)
  strDecimalValue : jsstring -> number;
  (** [evaluate(expression)] of mathjs *)
  evaluate : jsstring -> EvalResult
}.

(** [parseFloat]: leading white space is dropped, the longest prefix
    that is a decimal literal (optional sign, then [Infinity], or digits
    with an optional fraction and an optional exponent) is converted,
    and the result is [NaN] when there is no such prefix. *)
Module ParseFloat.

Definition isWhiteSpace (c : N) : bool :=
  ((9 <=? c) && (c <=? 13) || (c =? 32) || (c =? 160) || (c =? 5760)
   || (8192 <=? c) && (c <=? 8202) || (c =? 8232) || (c =? 8233)
   || (c =? 8239) || (c =? 8287) || (c =? 12288) || (c =? 65279))%N.

Fixpoint trimStart (s : jsstring) : jsstring :=
  match s with
  | [] => []
  | c :: s' => if isWhiteSpace c then trimStart s' else s
  end.

Fixpoint digits (s : jsstring) : jsstring :=
  match s with
  | [] => []
  | c :: s' => if JsString.isDigit c then c :: digits s' else []
  end.

(** The exponent part at the head of [s]; empty when there is none. *)
Definition exponentPart (s : jsstring) : jsstring :=
  match s with
  | [] => []
  | c :: s1 =>
    if ((c =? 101) || (c =? 69))%N then
      let sign :=
        match s1 with
        | d :: _ => if ((d =? 43) || (d =? 45))%N then [d] else []
        | [] => []
        end in
      match digits (skipn (List.length sign) s1) with
      | [] => []
      | ds => c :: sign ++ ds
      end
    else []
  end.

Definition unsignedPrefix (s : jsstring) : option jsstring :=
  if JsString.startsWith (lit "Infinity") s then Some (lit "Infinity")
  else
    let whole := digits s in
    let rest := skipn (List.length whole) s in
    let fraction :=
      match rest with
      | c :: rest' => if (c =? 46)%N then Some (digits rest') else None
      | [] => None
      end in
    match whole, fraction with
    | [], None => None
    | [], Some [] => None
    | _, None => Some (whole ++ exponentPart rest)
    | _, Some ds =>
      Some (whole ++ 46%N :: ds
              ++ exponentPart (skipn (S (List.length ds)) rest))
    end.

Definition decimalPrefix (s : jsstring) : option jsstring :=
  match s with
  | [] => None
  | c :: s' =>
    if ((c =? 43) || (c =? 45))%N
    then option_map (cons c) (unsignedPrefix s')
    else unsignedPrefix s
  end.

End ParseFloat.

Definition parseFloat (rt : Runtime) (s : jsstring) : number :=
  match ParseFloat.decimalPrefix (ParseFloat.trimStart s) with
  | None => nan
  | Some literal => strDecimalValue rt literal
  end.

(** ** The calculator state *)

Inductive AngleMode : Type := DEG | RAD.

Record CalculatorState : Type := mkState {
  display : jsstring;
  expression : jsstring;
  memory : number;
  angleMode : AngleMode;
  previousAnswer : number;
  waitingForOperand : bool;
  hasError : bool
}.

Definition initialState : CalculatorState :=
  {| display := lit "0";
     expression := lit "";
     memory := 0%float;
     angleMode := DEG;
     previousAnswer := 0%float;
     waitingForOperand := false;
     hasError := false |}.

(** ** The reducers

    Each definition is the function a handler passes to [setState]: it
    maps the previous state [prev] to the next one. *)

Definition insertNumber (num : jsstring) (prev : CalculatorState)
  : CalculatorState :=
  if waitingForOperand prev || JsString.eqb (display prev) (lit "0")
     || hasError prev
  then
    {| display := num;
       expression := expression prev ++ num;
       memory := memory prev;
       angleMode := angleMode prev;
       previousAnswer := previousAnswer prev;
       waitingForOperand := false;
       hasError := false |}
  else
    {| display := display prev ++ num;
       expression := expression prev ++ num;
       memory := memory prev;
       angleMode := angleMode prev;
       previousAnswer := previousAnswer prev;
       waitingForOperand := waitingForOperand prev;
       hasError := hasError prev |}.

Definition isParenthesis (operator : jsstring) : bool :=
  JsString.eqb operator (lit "(") || JsString.eqb operator (lit ")").

Definition mathOperator (operator : jsstring) : jsstring :=
  if JsString.eqb operator (lit "×") then lit "*"
  else if JsString.eqb operator (lit "÷") then lit "/"
  else if JsString.eqb operator (lit "−") then lit "-"
  else operator.

Definition insertOperator (operator : jsstring) (prev : CalculatorState)
  : CalculatorState :=
  let newExpression :=
    if isParenthesis operator
    then expression prev ++ operator
    else expression prev ++ mathOperator operator in
  {| display := display prev;
     expression := newExpression;
     memory := memory prev;
     angleMode := angleMode prev;
     previousAnswer := previousAnswer prev;
     waitingForOperand := negb (isParenthesis operator);
     hasError := false |}.

Definition insertDecimal (prev : CalculatorState) : CalculatorState :=
  if waitingForOperand prev || hasError prev
  then
    {| display := lit "0.";
       expression := expression prev ++ lit "0.";
       memory := memory prev;
       angleMode := angleMode prev;
       previousAnswer := previousAnswer prev;
       waitingForOperand := false;
       hasError := false |}
  else if (JsString.indexOf (lit ".") (display prev) =? -1)%Z
  then
    {| display := display prev ++ lit ".";
       expression := expression prev ++ lit ".";
       memory := memory prev;
       angleMode := angleMode prev;
       previousAnswer := previousAnswer prev;
       waitingForOperand := waitingForOperand prev;
       hasError := hasError prev |}
  else prev.

Definition insertConstant (constant : jsstring) (prev : CalculatorState)
  : CalculatorState :=
  let value :=
    if JsString.eqb constant (lit "π") then pi_toString else e_toString in
  {| display := value;
     expression := expression prev ++ constant;
     memory := memory prev;
     angleMode := angleMode prev;
     previousAnswer := previousAnswer prev;
     waitingForOperand := false;
     hasError := false |}.

Definition insertAnswer (rt : Runtime) (prev : CalculatorState)
  : CalculatorState :=
  {| display := numberToString rt (previousAnswer prev);
     expression := expression prev ++ numberToString rt (previousAnswer prev);
     memory := memory prev;
     angleMode := angleMode prev;
     previousAnswer := previousAnswer prev;
     waitingForOperand := false;
     hasError := false |}.

(** The [switch] of [handleFunction]: the text a function key appends to
    the expression, [None] for the [default] case. *)
Definition functionFragment (func : jsstring) : option jsstring :=
  if JsString.eqb func (lit "sin") || JsString.eqb func (lit "cos")
     || JsString.eqb func (lit "tan") then Some (func ++ lit "(")
  else if JsString.eqb func (lit "sin⁻¹") then Some (lit "asin(")
  else if JsString.eqb func (lit "cos⁻¹") then Some (lit "acos(")
  else if JsString.eqb func (lit "tan⁻¹") then Some (lit "atan(")
  else if JsString.eqb func (lit "ln") then Some (lit "log(")
  else if JsString.eqb func (lit "log") then Some (lit "log10(")
  else if JsString.eqb func (lit "√x") then Some (lit "sqrt(")
  else if JsString.eqb func (lit "³√x") then Some (lit "cbrt(")
  else if JsString.eqb func (lit "x²") then Some (lit "^2")
  else if JsString.eqb func (lit "x³") then Some (lit "^3")
  else if JsString.eqb func (lit "x^y") then Some (lit "^")
  else if JsString.eqb func (lit "eˣ") then Some (lit "exp(")
  else if JsString.eqb func (lit "10ˣ") then Some (lit "10^(")
  else if JsString.eqb func (lit "1/x") then Some (lit "1/(")
  else if JsString.eqb func (lit "n!") then Some (lit "!")
  else if JsString.eqb func (lit "%") then Some (lit "/100")
  else if JsString.eqb func (lit "y√x") then Some (lit "nthRoot(")
  else None.

Definition handleFunction (func : jsstring) (prev : CalculatorState)
  : CalculatorState :=
  match functionFragment func with
  | None => prev
  | Some fragment =>
    {| display := display prev;
       expression := expression prev ++ fragment;
       memory := memory prev;
       angleMode := angleMode prev;
       previousAnswer := previousAnswer prev;
       waitingForOperand := JsString.includes (lit "(") func;
       hasError := false |}
  end.

Definition toggleAngleMode (prev : CalculatorState) : CalculatorState :=
  {| display := display prev;
     expression := expression prev;
     memory := memory prev;
     angleMode := match angleMode prev with DEG => RAD | RAD => DEG end;
     previousAnswer := previousAnswer prev;
     waitingForOperand := waitingForOperand prev;
     hasError := hasError prev |}.

Definition toggleSign (prev : CalculatorState) : CalculatorState :=
  if JsString.eqb (display prev) (lit "0") || hasError prev then prev
  else
    let newDisplay :=
      if JsString.startsWith (lit "-") (display prev)
      then JsString.slice1 (display prev)
      else lit "-" ++ display prev in
    {| display := newDisplay;
       expression := expression prev;
       memory := memory prev;
       angleMode := angleMode prev;
       previousAnswer := previousAnswer prev;
       waitingForOperand := waitingForOperand prev;
       hasError := hasError prev |}.

Definition backspace (prev : CalculatorState) : CalculatorState :=
  if hasError prev || JsString.eqb (display prev) (lit "0")
  then
    {| display := lit "0";
       expression := lit "";
       memory := memory prev;
       angleMode := angleMode prev;
       previousAnswer := previousAnswer prev;
       waitingForOperand := waitingForOperand prev;
       hasError := false |}
  else
    let newExpression := JsString.dropLast (expression prev) in
    let newDisplay :=
      if (1 <? JsString.length (display prev))%nat
      then JsString.dropLast (display prev)
      else lit "0" in
    {| display := newDisplay;
       expression := newExpression;
       memory := memory prev;
       angleMode := angleMode prev;
       previousAnswer := previousAnswer prev;
       waitingForOperand := waitingForOperand prev;
       hasError := hasError prev |}.

Definition clearAll (prev : CalculatorState) : CalculatorState :=
  initialState.

(** [randomNum] is the value [Math.random()] returned. *)
Definition generateRandom (rt : Runtime) (randomNum : number)
  (prev : CalculatorState) : CalculatorState :=
  {| display := numberToString rt randomNum;
     expression := expression prev ++ numberToString rt randomNum;
     memory := memory prev;
     angleMode := angleMode prev;
     previousAnswer := previousAnswer prev;
     waitingForOperand := false;
     hasError := false |}.

(** [s || '0'] *)
Definition orZero (s : jsstring) : jsstring :=
  match s with [] => lit "0" | _ :: _ => s end.

Definition memoryAdd (rt : Runtime) (prev : CalculatorState)
  : CalculatorState :=
  {| display := display prev;
     expression := expression prev;
     memory := (memory prev + parseFloat rt (orZero (display prev)))%float;
     angleMode := angleMode prev;
     previousAnswer := previousAnswer prev;
     waitingForOperand := waitingForOperand prev;
     hasError := hasError prev |}.

Definition memorySubtract (rt : Runtime) (prev : CalculatorState)
  : CalculatorState :=
  {| display := display prev;
     expression := expression prev;
     memory := (memory prev - parseFloat rt (orZero (display prev)))%float;
     angleMode := angleMode prev;
     previousAnswer := previousAnswer prev;
     waitingForOperand := waitingForOperand prev;
     hasError := hasError prev |}.

Definition memoryRecall (rt : Runtime) (prev : CalculatorState)
  : CalculatorState :=
  {| display := numberToString rt (memory prev);
     expression := expression prev ++ numberToString rt (memory prev);
     memory := memory prev;
     angleMode := angleMode prev;
     previousAnswer := previousAnswer prev;
     waitingForOperand := false;
     hasError := false |}.

Definition memoryClear (prev : CalculatorState) : CalculatorState :=
  {| display := display prev;
     expression := expression prev;
     memory := 0%float;
     angleMode := angleMode prev;
     previousAnswer := previousAnswer prev;
     waitingForOperand := waitingForOperand prev;
     hasError := hasError prev |}.

(** *** Evaluation *)

(** "Replace constants" *)
Definition replaceConstants (expression : jsstring) : jsstring :=
  let expression := JsString.replaceAll (lit "π") pi_toString expression in
  JsString.replace_e_not_digit e_toString expression.

(** "Handle angle mode for trigonometric functions": the six
    replacements done when the angle mode is [DEG], in their order. *)
Definition degreesRewrite (expression : jsstring) : jsstring :=
  let expression :=
    JsString.replaceAll (lit "sin(") (lit "sin((pi/180)*") expression in
  let expression :=
    JsString.replaceAll (lit "cos(") (lit "cos((pi/180)*") expression in
  let expression :=
    JsString.replaceAll (lit "tan(") (lit "tan((pi/180)*") expression in
  let expression :=
    JsString.replaceAll (lit "asin(") (lit "(180/pi)*asin(") expression in
  let expression :=
    JsString.replaceAll (lit "acos(") (lit "(180/pi)*acos(") expression in
  JsString.replaceAll (lit "atan(") (lit "(180/pi)*atan(") expression.

Definition angleRewrite (mode : AngleMode) (expression : jsstring)
  : jsstring :=
  match mode with
  | DEG => degreesRewrite expression
  | RAD => expression
  end.

(** The string [calculate] hands to [evaluate]. *)
Definition evaluatorInput (mode : AngleMode) (expression : jsstring)
  : jsstring :=
  angleRewrite mode (replaceConstants expression).

(** The state of the [catch] branch. *)
Definition errorState (prev : CalculatorState) : CalculatorState :=
  {| display := lit "Error";
     expression := lit "";
     memory := memory prev;
     angleMode := angleMode prev;
     previousAnswer := previousAnswer prev;
     waitingForOperand := waitingForOperand prev;
     hasError := true |}.

Definition calculate (rt : Runtime) (prev : CalculatorState)
  : CalculatorState :=
  match expression prev with
  | [] => prev
  | _ :: _ =>
    match evaluate rt (evaluatorInput (angleMode prev) (expression prev)) with
    | ReturnsNumber result =>
      let resultStr :=
        if outOfPlainRange result
        then toExponential rt result 6
        else numberToString rt result in
      {| display := resultStr;
         expression := lit "";
         memory := memory prev;
         angleMode := angleMode prev;
         previousAnswer := result;
         waitingForOperand := true;
         hasError := false |}
    | ReturnsOther (Some resultStr) =>
      {| display := resultStr;
         expression := lit "";
         memory := memory prev;
         angleMode := angleMode prev;
         previousAnswer := 0%float;
         waitingForOperand := true;
         hasError := false |}
    | ReturnsOther None => errorState prev
    | Throws => errorState prev
    end
  end.

(** *** Rendering of the display *)

Definition formatDisplay (rt : Runtime) (value : jsstring) : jsstring :=
  if JsString.eqb value (lit "Error") then value
  else
    let num := parseFloat rt value in
    if is_nan num then value
    else if outOfPlainRange num then toExponential rt num 6
    else if JsString.includes (lit ".") value
            && (12 <? JsString.length value)%nat
    then toPrecision rt num 10
    else value.

(** ** Input events *)

Inductive Event : Type :=
| InsertDigit (num : jsstring)
| InsertOperator (operator : jsstring)
| InsertDecimal
| InsertConstant (constant : jsstring)
| InsertPreviousAnswer
| ApplyFunction (func : jsstring)
| ToggleSign
| Backspace
| ClearAll
| ToggleAngleMode
| GenerateRandom (randomNum : number)
| MemoryAdd
| MemorySubtract
| MemoryRecall
| MemoryClear
| Evaluate.

Definition step (rt : Runtime) (ev : Event) (prev : CalculatorState)
  : CalculatorState :=
  match ev with
  | InsertDigit num => insertNumber num prev
  | InsertOperator operator => insertOperator operator prev
  | InsertDecimal => insertDecimal prev
  | InsertConstant constant => insertConstant constant prev
  | InsertPreviousAnswer => insertAnswer rt prev
  | ApplyFunction func => handleFunction func prev
  | ToggleSign => toggleSign prev
  | Backspace => backspace prev
  | ClearAll => clearAll prev
  | ToggleAngleMode => toggleAngleMode prev
  | GenerateRandom randomNum => generateRandom rt randomNum prev
  | MemoryAdd => memoryAdd rt prev
  | MemorySubtract => memorySubtract rt prev
  | MemoryRecall => memoryRecall rt prev
  | MemoryClear => memoryClear prev
  | Evaluate => calculate rt prev
  end.

(** The state after a sequence of events, the first event first. *)
Definition run (rt : Runtime) (events : list Event) (s : CalculatorState)
  : CalculatorState :=
  fold_left (fun st ev => step rt ev st) events s.

(** The states the calculator can be in. *)
Inductive reachable (rt : Runtime) : CalculatorState -> Prop :=
| reachable_initial : reachable rt initialState
| reachable_step : forall ev s,
    reachable rt s -> reachable rt (step rt ev s).

(** The events that are digit keys: one code unit in ['0'..'9']. *)
Definition digitEvents (digits : jsstring) : list Event :=
  map (fun d => InsertDigit [d]) digits.

(** The table of function keys of the specification (section 4.1): the
    key and the fragment it stands for. *)
Definition functionTable : list (jsstring * jsstring) :=
  [ (lit "sin", lit "sin("); (lit "cos", lit "cos("); (lit "tan", lit "tan(");
    (lit "sin⁻¹", lit "asin("); (lit "cos⁻¹", lit "acos(");
    (lit "tan⁻¹", lit "atan(");
    (lit "ln", lit "log("); (lit "log", lit "log10(");
    (lit "√x", lit "sqrt("); (lit "³√x", lit "cbrt(");
    (lit "x²", lit "^2"); (lit "x³", lit "^3"); (lit "x^y", lit "^");
    (lit "eˣ", lit "exp("); (lit "10ˣ", lit "10^("); (lit "1/x", lit "1/(");
    (lit "n!", lit "!"); (lit "%", lit "/100"); (lit "y√x", lit "nthRoot(") ].

(** [s] ends in an open parenthesis. *)
Definition endsInOpenParenthesis (s : jsstring) : bool :=
  match rev s with
  | c :: _ => (c =? 40)%N
  | [] => false
  end.

(** ** Predicates of the specification *)

(** "[hasError] implies that [expression] is the empty string" *)
Definition errorHasNoExpression (s : CalculatorState) : Prop :=
  hasError s = true -> expression s = lit "".

(** The key is one of the function keys of the table. *)
Definition tableKey (func : jsstring) : bool :=
  existsb (fun kf => JsString.eqb func (fst kf)) functionTable.

(** The events that enter something: a digit, an operator, the decimal
    point, a constant, the previous answer, a random number, the memory,
    or a function key of the table. *)
Definition insertionEvent (ev : Event) : bool :=
  match ev with
  | InsertDigit _ | InsertOperator _ | InsertDecimal | InsertConstant _
  | InsertPreviousAnswer | GenerateRandom _ | MemoryRecall => true
  | ApplyFunction func => tableKey func
  | _ => false
  end.

(** The events after which the error is gone: the insertion events,
    Backspace and ClearAll. *)
Definition clearsError (ev : Event) : bool :=
  match ev with
  | Backspace | ClearAll => true
  | _ => insertionEvent ev
  end.

(** An error state with the error cleared: [hasError] is false and the
    state waits for an operand, as it does after an evaluation; display,
    expression and registers are kept. *)
Definition errorCleared (prev : CalculatorState) : CalculatorState :=
  {| display := display prev;
     expression := expression prev;
     memory := memory prev;
     angleMode := angleMode prev;
     previousAnswer := previousAnswer prev;
     waitingForOperand := true;
     hasError := false |}.

(** The number of decimal points of a string. *)
Definition decimalPoints (s : jsstring) : nat := count_occ N.eq_dec s 46%N.

(** "[|v| > 1e15], or [0 < |v| < 1e-6]", with the two bounds of the
    rule written out: the predicate does not read the constants of the
    code. *)
#[warnings="-inexact-float"]
Definition scientificRange (v : number) : Prop :=
  (1e15 <? abs v)%float = true
  \/ ((0 <? abs v)%float = true /\ (abs v <? 1e-6)%float = true).

(** A runtime to run the reducers on examples.  It reads a literal made
    of digits only (below 2^63) as the number it denotes and any other
    literal as 0, renders numbers by the name of the conversion, and its
    evaluator rejects every expression. *)
Module ExampleRuntime.

Definition digitsValue (s : jsstring) : Z :=
  fold_left (fun acc c => (10 * acc + (Z.of_N c - 48))%Z) s 0%Z.

Definition digitsNumber (s : jsstring) : number :=
  if forallb JsString.isDigit s
  then PrimFloat.of_uint63 (Uint63.of_Z (digitsValue s))
  else 0%float.

Definition rt : Runtime :=
  {| numberToString := fun _ => lit "<toString>";
     toExponential := fun _ _ => lit "<toExponential>";
     toPrecision := fun _ _ => lit "<toPrecision>";
     strDecimalValue := digitsNumber;
     evaluate := fun _ => Throws |}.

End ExampleRuntime.

(** The state after the keys 2, + and = when the evaluator rejects
    [2+]: the error state of a failed evaluation. *)
Definition failedEvaluation : CalculatorState :=
  run ExampleRuntime.rt
    [InsertDigit (lit "2"); InsertOperator (lit "+"); Evaluate] initialState.

(** ** Keyboard support *)

(** [a <= b] on strings: the comparison of JavaScript, code unit by code
    unit, a proper prefix being smaller. *)
Fixpoint string_le (a b : jsstring) : bool :=
  match a, b with
  | [], _ => true
  | _ :: _, [] => false
  | x :: a', y :: b' =>
    if (x <? y)%N then true
    else if (x =? y)%N then string_le a' b'
    else false
  end.

(** [key >= '0' && key <= '9'] *)
Definition isDigitKey (key : jsstring) : bool :=
  string_le (lit "0") key && string_le key (lit "9").

(** [['+', '-', '*', '/'].includes(key)] *)
Definition isOperatorKey (key : jsstring) : bool :=
  JsString.eqb key (lit "+") || JsString.eqb key (lit "-")
  || JsString.eqb key (lit "*") || JsString.eqb key (lit "/").

(** The effect of [handleKeyDown] on the state for the key [key]: the
    handler calls one of the reducers, or none. *)
Definition handleKeyDown (rt : Runtime) (key : jsstring)
  (prev : CalculatorState) : CalculatorState :=
  if isDigitKey key then insertNumber key prev
  else if JsString.eqb key (lit ".") then insertDecimal prev
  else if isOperatorKey key then
    let operator :=
      if JsString.eqb key (lit "*") then lit "×"
      else if JsString.eqb key (lit "/") then lit "÷"
      else if JsString.eqb key (lit "-") then lit "−"
      else key in
    insertOperator operator prev
  else if JsString.eqb key (lit "(") || JsString.eqb key (lit ")")
  then insertOperator key prev
  else if JsString.eqb key (lit "Enter") || JsString.eqb key (lit "=")
  then calculate rt prev
  else if JsString.eqb key (lit "Escape") then clearAll prev
  else if JsString.eqb key (lit "Backspace") then backspace prev
  else prev.

(** The keys [handleKeyDown] has a branch for, the digit keys apart. *)
Definition boundKeys : list jsstring :=
  [lit "."; lit "+"; lit "-"; lit "*"; lit "/"; lit "("; lit ")";
   lit "Enter"; lit "="; lit "Escape"; lit "Backspace"].

(** The keyboard binding of the specification (section 6): a digit key
    stands for the digit event, [.] for the decimal point, [+ - * /] for
    the operator buttons (with their glyphs), the parentheses for
    themselves, [Enter] and [=] for Evaluate, [Escape] for ClearAll and
    [Backspace] for Backspace. *)
Definition keyBindings : list (jsstring * Event) :=
  [ (lit ".", InsertDecimal);
    (lit "+", InsertOperator (lit "+"));
    (lit "-", InsertOperator (lit "−"));
    (lit "*", InsertOperator (lit "×"));
    (lit "/", InsertOperator (lit "÷"));
    (lit "(", InsertOperator (lit "("));
    (lit ")", InsertOperator (lit ")"));
    (lit "Enter", Evaluate);
    (lit "=", Evaluate);
    (lit "Escape", ClearAll);
    (lit "Backspace", Backspace) ].

(** The key is one digit. *)
Definition singleDigit (key : jsstring) : bool :=
  match key with
  | [d] => JsString.isDigit d
  | _ => false
  end.

Definition keyBinding (key : jsstring) : option Event :=
  if singleDigit key then Some (InsertDigit key)
  else option_map snd
         (find (fun kb => JsString.eqb key (fst kb)) keyBindings).

(** The keys a keyboard sends: one code unit, or a name, which does not
    start with a digit. *)
Definition plainKey (key : jsstring) : bool :=
  match key with
  | c :: _ :: _ => negb (JsString.isDigit c)
  | _ => true
  end.

(** ** Further predicates *)

(** The glyphs the operator buttons are labelled with. *)
Definition operatorGlyphs : list jsstring := [lit "×"; lit "÷"; lit "−"].

(** The renderings of numbers, [toString] and [toExponential], have at
    most one decimal point. *)
Definition numbersRenderOneDecimalPoint (rt : Runtime) : Prop :=
  (forall x, decimalPoints (numberToString rt x) <= 1)
  /\ (forall x digits, decimalPoints (toExponential rt x digits) <= 1).

(** The evaluation of the expression of [s] returns a value that is not
    a number, rendered as [rendering]. *)
Definition evaluatesToOther (rt : Runtime) (s : CalculatorState)
  (rendering : jsstring) : Prop :=
  expression s <> lit ""
  /\ evaluate rt (evaluatorInput (angleMode s) (expression s))
     = ReturnsOther (Some rendering).

(** No Evaluate event of the sequence, run from [s], returns a value
    that is not a number: each returns a number or fails. *)
Fixpoint numericEvaluations (rt : Runtime) (events : list Event)
  (s : CalculatorState) : Prop :=
  match events with
  | [] => True
  | ev :: rest =>
    (ev = Evaluate -> forall rendering, ~ evaluatesToOther rt s rendering)
    /\ numericEvaluations rt rest (step rt ev s)
  end.

(** The events as the keypad and the keyboard produce them: a digit
    event carries one digit. *)
Definition keypadEvent (ev : Event) : Prop :=
  match ev with
  | InsertDigit num => exists d, num = [d] /\ JsString.isDigit d = true
  | _ => True
  end.

(** The events that append to the expression. *)
Definition appendsToExpression (ev : Event) : bool :=
  match ev with
  | Backspace | ClearAll | Evaluate => false
  | _ => true
  end.

(** An [e] that is not followed by a digit occurs in [s]. *)
Fixpoint hasBareE (s : jsstring) : bool :=
  match s with
  | [] => false
  | c :: s' =>
    ((c =? 101)%N
     && negb (match s' with [] => false | d :: _ => JsString.isDigit d end))
    || hasBareE s'
  end.

(** A runtime whose evaluator returns 4 for every expression. *)
Definition fourRuntime : Runtime :=
  {| numberToString := numberToString ExampleRuntime.rt;
     toExponential := toExponential ExampleRuntime.rt;
     toPrecision := toPrecision ExampleRuntime.rt;
     strDecimalValue := strDecimalValue ExampleRuntime.rt;
     evaluate := fun _ => ReturnsNumber 4%float |}.

(** The state before [=] in 2+2. *)
Definition twoPlusTwo : CalculatorState :=
  run fourRuntime
    [InsertDigit (lit "2"); InsertOperator (lit "+"); InsertDigit (lit "2")]
    initialState.

(** A runtime whose evaluator returns a complex number for every
    expression, rendered as mathjs renders the value of [asin(2)]. *)
Definition complexRuntime : Runtime :=
  {| numberToString := numberToString ExampleRuntime.rt;
     toExponential := toExponential ExampleRuntime.rt;
     toPrecision := toPrecision ExampleRuntime.rt;
     strDecimalValue := strDecimalValue ExampleRuntime.rt;
     evaluate := fun _ =>
       ReturnsOther
         (Some (lit "1.5707963267948966 - 1.3169578969248166i")) |}.

(** * Properties *)

(** ** Strings *)

Lemma eqb_eq (a b : jsstring) : JsString.eqb a b = true <-> a = b.
Proof.
  revert b; induction a as [|x a IH]; intros [|y b]; simpl;
    try (split; [discriminate | discriminate]); [tauto|].
  rewrite andb_true_iff, N.eqb_eq, IH.
  split; [intros [-> ->]; reflexivity | intros H; inversion H; auto].
Qed.

Lemma eqb_refl (a : jsstring) : JsString.eqb a a = true.
Proof. apply eqb_eq; reflexivity. Qed.

Lemma eqb_neq (a b : jsstring) : JsString.eqb a b = false <-> a <> b.
Proof.
  rewrite <- eqb_eq. destruct (JsString.eqb a b); split; intros H;
    try discriminate; try reflexivity; congruence.
Qed.

(** The three equations of a global replacement of a literal pattern:
    nothing to do in the empty string, a match at the head is replaced
    and the scan goes on after it, and a code unit where the pattern does
    not match is kept. *)
Lemma startsWith_app (p s : jsstring) : JsString.startsWith p (p ++ s) = true.
Proof.
  induction p as [|x p IH]; simpl; [reflexivity|].
  rewrite N.eqb_refl, IH. reflexivity.
Qed.

Lemma replaceAll_skip_app (q p r s : jsstring) :
  JsString.replaceAll_skip (List.length q) p r (q ++ s)
  = JsString.replaceAll_skip 0 p r s.
Proof.
  induction q as [|x q IH]; simpl; [|exact IH].
  destruct s; reflexivity.
Qed.

Lemma replaceAll_nil (p r : jsstring) : JsString.replaceAll p r [] = [].
Proof. destruct p; reflexivity. Qed.

Lemma replaceAll_match (p r s : jsstring) :
  p <> [] ->
  JsString.replaceAll p r (p ++ s) = r ++ JsString.replaceAll p r s.
Proof.
  destruct p as [|x p]; [congruence|]. intros _.
  unfold JsString.replaceAll.
  change ((x :: p) ++ s) with (x :: (p ++ s)).
  cbn [JsString.replaceAll_skip].
  change (x :: (p ++ s)) with ((x :: p) ++ s).
  rewrite startsWith_app. cbn [List.length Nat.pred].
  rewrite replaceAll_skip_app. reflexivity.
Qed.

Lemma replaceAll_no_match (p r : jsstring) (c : N) (s : jsstring) :
  JsString.startsWith p (c :: s) = false ->
  JsString.replaceAll p r (c :: s) = c :: JsString.replaceAll p r s.
Proof.
  destruct p as [|x p]; [discriminate|]. intros H.
  unfold JsString.replaceAll. cbn [JsString.replaceAll_skip].
  rewrite H. reflexivity.
Qed.

(** After the replacement of the constants no [π] is left. *)
Lemma replaceConstants_no_pi (expression : jsstring) :
  ~ In 960%N (replaceConstants expression).
Proof.
  unfold replaceConstants.
  assert (Hpi : forall s, ~ In 960%N
                  (JsString.replaceAll (lit "π") pi_toString s)).
  { induction s as [|c s IH]; [rewrite replaceAll_nil; exact (fun H => H)|].
    destruct (N.eq_dec c 960) as [->|Hc].
    - change (960%N :: s) with (lit "π" ++ s).
      rewrite replaceAll_match by discriminate.
      intros H. apply in_app_or in H. destruct H as [H | H]; [|exact (IH H)].
      vm_compute in H. repeat (destruct H as [H | H]; [discriminate|]).
      exact H.
    - rewrite replaceAll_no_match.
      + intros [H | H]; [exact (Hc H) | exact (IH H)].
      + change (lit "π") with [960%N]. cbn [JsString.startsWith].
        destruct (N.eqb_spec 960 c) as [E|_]; [symmetry in E; contradiction|].
        reflexivity. }
  generalize (Hpi expression).
  generalize (JsString.replaceAll (lit "π") pi_toString expression).
  induction t as [|c s IH]; intros Hs; cbn [JsString.replace_e_not_digit];
    [exact (fun H => H)|].
  assert (Hs' : ~ In 960%N s) by (intros H; apply Hs; right; exact H).
  destruct ((c =? 101)%N && _).
  - intros H. apply in_app_or in H. destruct H as [H | H]; [|exact (IH Hs' H)].
    vm_compute in H. repeat (destruct H as [H | H]; [discriminate|]).
    exact H.
  - intros [H | H]; [apply Hs; left; exact H | exact (IH Hs' H)].
Qed.

(** ** Angle-mode rewriting *)

(** C1, evaluated on the code: in DEG mode the expression built by the
    keys sin-1, 1 and ")" is [asin(1)], and what [calculate] hands to
    the evaluator for it is [(180/pi)*asin((pi/180)*1)]: the first
    replacement, of [sin(], also rewrites the [sin(] inside [asin(], so
    an inverse function gets the argument multiplied as well as the
    result; the same happens to [acos(] and [atan(].  A direct call such
    as [sin(90)] becomes [sin((pi/180)*90)]. *)
Theorem degrees_rewrite_inverse_trig :
  forall rt,
    expression (run rt [ApplyFunction (lit "sin⁻¹"); InsertDigit (lit "1");
                        InsertOperator (lit ")")] initialState)
      = lit "asin(1)"
    /\ angleMode initialState = DEG
    /\ evaluatorInput DEG (lit "asin(1)") = lit "(180/pi)*asin((pi/180)*1)"
    /\ evaluatorInput DEG (lit "acos(1)") = lit "(180/pi)*acos((pi/180)*1)"
    /\ evaluatorInput DEG (lit "atan(1)") = lit "(180/pi)*atan((pi/180)*1)"
    /\ evaluatorInput DEG (lit "sin(90)") = lit "sin((pi/180)*90)".
Proof.
  intros rt. repeat split; vm_compute; reflexivity.
Qed.

(** ** Function keys *)

(** C2, evaluated on the code: for every key of the table,
    [handleFunction] appends the fragment of the table to the
    expression, clears [hasError], and sets [waitingForOperand] to
    false, also for the fragments that end in an open parenthesis: the
    test [includes('(')] is made on the key, and no key contains a
    parenthesis. *)
Theorem handleFunction_table :
  forall key fragment prev,
    In (key, fragment) functionTable ->
    handleFunction key prev =
      {| display := display prev;
         expression := expression prev ++ fragment;
         memory := memory prev;
         angleMode := angleMode prev;
         previousAnswer := previousAnswer prev;
         waitingForOperand := false;
         hasError := false |}.
Proof.
  intros key fragment prev H.
  unfold functionTable in H; simpl in H.
  repeat (destruct H as [H | H]; [inversion H; subst; reflexivity|]).
  contradiction.
Qed.

(** The fragments of the table that end in an open parenthesis. *)
Lemma functionTable_open_parenthesis :
  map fst (filter (fun kf => endsInOpenParenthesis (snd kf)) functionTable)
  = [lit "sin"; lit "cos"; lit "tan"; lit "sin⁻¹"; lit "cos⁻¹"; lit "tan⁻¹";
     lit "ln"; lit "log"; lit "√x"; lit "³√x"; lit "eˣ"; lit "10ˣ";
     lit "1/x"; lit "y√x"].
Proof. vm_compute; reflexivity. Qed.

Lemma handleFunction_table_witness :
  In (lit "sin", lit "sin(") functionTable
  /\ handleFunction (lit "sin") initialState =
    {| display := lit "0";
       expression := lit "sin(";
       memory := 0%float;
       angleMode := DEG;
       previousAnswer := 0%float;
       waitingForOperand := false;
       hasError := false |}.
Proof.
  assert (H : In (lit "sin", lit "sin(") functionTable)
    by (left; reflexivity).
  split; [exact H|].
  exact (@handleFunction_table (lit "sin") (lit "sin(") initialState H).
Defined.

(** ** Constants *)

(** C3, evaluated on the code: the keys e^x, 1 and ")" build the
    expression [exp(1)], and the replacement of [e] turns it into
    [2.718281828459045xp(1)]: the [e] of [exp(] is not followed by a
    digit, so it is replaced like the constant.  The constant [π] and a
    lone [e] are replaced by their literals, and an [e] followed by a
    digit is kept. *)
Theorem replaceConstants_exp :
  forall rt,
    expression (run rt [ApplyFunction (lit "eˣ"); InsertDigit (lit "1");
                        InsertOperator (lit ")")] initialState)
      = lit "exp(1)"
    /\ replaceConstants (lit "exp(1)") = lit "2.718281828459045xp(1)"
    /\ evaluatorInput DEG (lit "exp(1)") = lit "2.718281828459045xp(1)"
    /\ evaluatorInput RAD (lit "exp(1)") = lit "2.718281828459045xp(1)"
    /\ replaceConstants (lit "2*π+e") =
         lit "2*3.141592653589793+2.718281828459045"
    /\ replaceConstants (lit "1e5") = lit "1e5".
Proof.
  intros rt. repeat split; vm_compute; reflexivity.
Qed.

(** ** Memory register *)

Lemma add_nan (x : number) : (x + nan)%float = nan.
Proof.
  apply Prim2SF_inj. rewrite add_spec.
  change (Prim2SF nan) with S754_nan.
  destruct (Prim2SF x); reflexivity.
Qed.

Lemma sub_nan (x : number) : (x - nan)%float = nan.
Proof.
  apply Prim2SF_inj. rewrite sub_spec.
  change (Prim2SF nan) with S754_nan.
  destruct (Prim2SF x); reflexivity.
Qed.

Lemma parseFloat_Error (rt : Runtime) : parseFloat rt (lit "Error") = nan.
Proof. reflexivity. Qed.

(** [memoryAdd] and [memorySubtract] are total and leave everything but
    [memory] as it was. *)
Lemma memory_operations_frame (rt : Runtime) (prev : CalculatorState) :
  forall op, op = memoryAdd rt \/ op = memorySubtract rt ->
    display (op prev) = display prev
    /\ expression (op prev) = expression prev
    /\ angleMode (op prev) = angleMode prev
    /\ previousAnswer (op prev) = previousAnswer prev
    /\ waitingForOperand (op prev) = waitingForOperand prev
    /\ hasError (op prev) = hasError prev.
Proof. intros op [-> | ->]; repeat split. Qed.

(** C4, evaluated on the code: when [display] is the literal [Error],
    [parseFloat] gives [NaN] (the fallback [|| '0'] applies to the empty
    string only), so [memoryAdd] and [memorySubtract] set [memory] to
    [NaN] whatever it was; with [memory] 0 before, it is not 0 after.
    Neither operation changes [expression]. *)
Theorem memory_operations_on_Error :
  forall rt prev,
    display prev = lit "Error" ->
    memory (memoryAdd rt prev) = nan
    /\ memory (memorySubtract rt prev) = nan
    /\ expression (memoryAdd rt prev) = expression prev
    /\ expression (memorySubtract rt prev) = expression prev.
Proof.
  intros rt prev H. unfold memoryAdd, memorySubtract; simpl.
  rewrite H. change (orZero (lit "Error")) with (lit "Error").
  rewrite parseFloat_Error, add_nan, sub_nan. repeat split.
Qed.

Lemma memory_operations_on_Error_witness :
  display failedEvaluation = lit "Error"
  /\ memory failedEvaluation = 0%float
  /\ memory (memoryAdd ExampleRuntime.rt failedEvaluation) = nan
  /\ memory (memorySubtract ExampleRuntime.rt failedEvaluation) = nan.
Proof.
  split; [reflexivity|]. split; [reflexivity|].
  pose proof (@memory_operations_on_Error ExampleRuntime.rt
                failedEvaluation eq_refl) as [Hadd [Hsub _]].
  split; [exact Hadd | exact Hsub].
Defined.

(** ** Evaluation failure *)

Lemma calculate_Throws (rt : Runtime) (prev : CalculatorState) :
  expression prev <> lit "" ->
  evaluate rt (evaluatorInput (angleMode prev) (expression prev)) = Throws ->
  calculate rt prev = errorState prev.
Proof.
  intros Hne Hthrows. unfold calculate.
  destruct (expression prev) as [|c e] eqn:E.
  - exfalso; apply Hne; reflexivity.
  - rewrite Hthrows. reflexivity.
Qed.

(** C5: when the expression is not empty and the evaluator throws on the
    string it is given, [calculate] returns (it is a total function: the
    exception is caught) the state with [display] the literal [Error],
    an empty [expression], [hasError] true and [previousAnswer] as it
    was before. *)
Theorem calculate_failure :
  forall rt prev,
    expression prev <> lit "" ->
    evaluate rt (evaluatorInput (angleMode prev) (expression prev)) = Throws ->
    display (calculate rt prev) = lit "Error"
    /\ expression (calculate rt prev) = lit ""
    /\ hasError (calculate rt prev) = true
    /\ previousAnswer (calculate rt prev) = previousAnswer prev.
Proof.
  intros rt prev Hne Hthrows.
  rewrite (calculate_Throws rt prev Hne Hthrows). repeat split.
Qed.

Lemma calculate_failure_witness :
  let prev := run ExampleRuntime.rt
                [InsertDigit (lit "2"); InsertOperator (lit "+")]
                initialState in
  expression prev = lit "2+"
  /\ display (calculate ExampleRuntime.rt prev) = lit "Error"
  /\ expression (calculate ExampleRuntime.rt prev) = lit ""
  /\ hasError (calculate ExampleRuntime.rt prev) = true
  /\ previousAnswer (calculate ExampleRuntime.rt prev) = previousAnswer prev.
Proof.
  intros prev. split; [reflexivity|].
  apply (@calculate_failure ExampleRuntime.rt prev).
  - vm_compute; discriminate.
  - reflexivity.
Defined.

(** ** The error flag and the expression *)

Lemma calculate_errorHasNoExpression (rt : Runtime) (s : CalculatorState) :
  errorHasNoExpression s -> errorHasNoExpression (calculate rt s).
Proof.
  unfold errorHasNoExpression, calculate. intros H.
  destruct (expression s) as [|c e] eqn:E; [rewrite E; exact H|].
  destruct (evaluate rt _) as [result | [resultStr|] | ]; simpl;
    intros; reflexivity.
Qed.

Lemma step_errorHasNoExpression (rt : Runtime) (ev : Event)
  (s : CalculatorState) :
  errorHasNoExpression s -> errorHasNoExpression (step rt ev s).
Proof.
  destruct ev; simpl; try apply calculate_errorHasNoExpression;
    unfold errorHasNoExpression; intros H.
  - (* insertNumber *)
    unfold insertNumber.
    destruct (waitingForOperand s || JsString.eqb (display s) (lit "0")
              || hasError s) eqn:C; simpl; [discriminate|].
    apply orb_false_iff in C. destruct C as [_ C]. rewrite C. discriminate.
  - (* insertOperator *) discriminate.
  - (* insertDecimal *)
    unfold insertDecimal.
    destruct (waitingForOperand s || hasError s) eqn:C; simpl; [discriminate|].
    apply orb_false_iff in C. destruct C as [_ C].
    destruct (JsString.indexOf (lit ".") (display s) =? -1)%Z; simpl;
      rewrite C; discriminate.
  - (* insertConstant *) discriminate.
  - (* insertAnswer *) discriminate.
  - (* handleFunction *)
    unfold handleFunction.
    destruct (functionFragment func); simpl; [discriminate | exact H].
  - (* toggleSign *)
    unfold toggleSign.
    destruct (JsString.eqb (display s) (lit "0") || hasError s); simpl;
      exact H.
  - (* backspace *)
    unfold backspace.
    destruct (hasError s || JsString.eqb (display s) (lit "0")) eqn:C; simpl;
      [discriminate|].
    apply orb_false_iff in C. destruct C as [C _]. rewrite C. discriminate.
  - (* clearAll *) discriminate.
  - (* toggleAngleMode *) exact H.
  - (* generateRandom *) discriminate.
  - (* memoryAdd *) exact H.
  - (* memorySubtract *) exact H.
  - (* memoryRecall *) discriminate.
  - (* memoryClear *) exact H.
Qed.

(** C6: the predicate "[hasError] implies [expression] is empty" holds
    in [initialState], every operation preserves it, and so it holds in
    every reachable state. *)
Theorem errorHasNoExpression_invariant :
  errorHasNoExpression initialState
  /\ (forall rt ev s,
        errorHasNoExpression s -> errorHasNoExpression (step rt ev s))
  /\ (forall rt s, reachable rt s -> errorHasNoExpression s).
Proof.
  assert (H0 : errorHasNoExpression initialState) by (intros H; reflexivity).
  split; [exact H0|]. split.
  - intros rt ev s. apply step_errorHasNoExpression.
  - intros rt s R. induction R as [|ev s R IH]; [exact H0|].
    apply step_errorHasNoExpression; exact IH.
Qed.

Lemma errorHasNoExpression_invariant_witness :
  let s := failedEvaluation in
  hasError s = true
  /\ errorHasNoExpression s
  /\ errorHasNoExpression (step ExampleRuntime.rt ToggleAngleMode s).
Proof.
  intros s. split; [reflexivity|].
  destruct errorHasNoExpression_invariant as [_ [Hstep Hreach]].
  assert (Hs : errorHasNoExpression s).
  { apply (Hreach ExampleRuntime.rt).
    exact (reachable_step Evaluate
             (reachable_step (InsertOperator (lit "+"))
                (reachable_step (InsertDigit (lit "2"))
                   (reachable_initial ExampleRuntime.rt)))). }
  split; [exact Hs|].
  apply Hstep; exact Hs.
Defined.

(** ** Leaving the error state *)

(** C7 as stated fails: in the error state reached by a failed
    evaluation, ToggleAngleMode, ToggleSign, MemoryAdd and
    MemorySubtract leave [hasError] true. *)
Lemma error_state_not_always_left :
  let s := failedEvaluation in
  hasError s = true
  /\ hasError (step ExampleRuntime.rt ToggleAngleMode s) <> false
  /\ hasError (step ExampleRuntime.rt ToggleSign s) <> false
  /\ hasError (step ExampleRuntime.rt MemoryAdd s) <> false
  /\ hasError (step ExampleRuntime.rt MemorySubtract s) <> false.
Proof. simpl. repeat split; discriminate. Qed.

Lemma tableKey_fragment (func : jsstring) :
  tableKey func = true ->
  exists fragment,
    In (func, fragment) functionTable
    /\ functionFragment func = Some fragment.
Proof.
  unfold tableKey. intros H. apply existsb_exists in H.
  destruct H as ([key fragment] & Hin & Heq).
  apply eqb_eq in Heq. cbn [fst] in Heq. subst key.
  exists fragment. split; [exact Hin|].
  unfold functionTable in Hin; simpl in Hin.
  repeat (destruct Hin as [Hin | Hin]; [inversion Hin; reflexivity|]).
  contradiction.
Qed.

(** C7, amended: from a state with [hasError] true,
    - an insertion event (digit, operator, decimal point, constant,
      previous answer, random number, memory recall, function key of the
      table) gives a state with [hasError] false, and this state is the
      one the same event gives from the state with the error cleared
      ([hasError] false, waiting for an operand): the event first clears
      the error and then has its own effect; so a digit or the decimal
      point starts a new number in the display and appends it to the
      expression;
    - Backspace gives the display [0], an empty expression and
      [hasError] false, and ClearAll gives [initialState];
    - ToggleSign leaves the state as it is; ToggleAngleMode, MemoryAdd,
      MemorySubtract and MemoryClear have their effect and leave
      [hasError] true; and Evaluate leaves the state as it is when the
      expression is empty. *)
Theorem error_state_events :
  forall rt prev,
    hasError prev = true ->
    (forall ev, clearsError ev = true -> hasError (step rt ev prev) = false)
    /\ (forall ev, insertionEvent ev = true ->
                   step rt ev prev = step rt ev (errorCleared prev))
    /\ (forall num,
           display (insertNumber num prev) = num
           /\ expression (insertNumber num prev) = expression prev ++ num
           /\ waitingForOperand (insertNumber num prev) = false)
    /\ (display (insertDecimal prev) = lit "0."
        /\ expression (insertDecimal prev) = expression prev ++ lit "0."
        /\ waitingForOperand (insertDecimal prev) = false)
    /\ backspace prev =
         {| display := lit "0";
            expression := lit "";
            memory := memory prev;
            angleMode := angleMode prev;
            previousAnswer := previousAnswer prev;
            waitingForOperand := waitingForOperand prev;
            hasError := false |}
    /\ clearAll prev = initialState
    /\ toggleSign prev = prev
    /\ (hasError (toggleAngleMode prev) = true
        /\ angleMode (toggleAngleMode prev) <> angleMode prev)
    /\ (hasError (memoryAdd rt prev) = true
        /\ memory (memoryAdd rt prev)
           = (memory prev + parseFloat rt (orZero (display prev)))%float)
    /\ (hasError (memorySubtract rt prev) = true
        /\ memory (memorySubtract rt prev)
           = (memory prev - parseFloat rt (orZero (display prev)))%float)
    /\ (hasError (memoryClear prev) = true
        /\ memory (memoryClear prev) = 0%float)
    /\ (expression prev = lit "" -> calculate rt prev = prev).
Proof.
  intros rt prev E.
  assert (Hnum : forall num,
             insertNumber num prev =
               {| display := num;
                  expression := expression prev ++ num;
                  memory := memory prev;
                  angleMode := angleMode prev;
                  previousAnswer := previousAnswer prev;
                  waitingForOperand := false;
                  hasError := false |}).
  { intros num. unfold insertNumber. rewrite E, !orb_true_r. reflexivity. }
  assert (Hdec : insertDecimal prev =
               {| display := lit "0.";
                  expression := expression prev ++ lit "0.";
                  memory := memory prev;
                  angleMode := angleMode prev;
                  previousAnswer := previousAnswer prev;
                  waitingForOperand := false;
                  hasError := false |}).
  { unfold insertDecimal. rewrite E, orb_true_r. reflexivity. }
  assert (Hback : backspace prev =
               {| display := lit "0";
                  expression := lit "";
                  memory := memory prev;
                  angleMode := angleMode prev;
                  previousAnswer := previousAnswer prev;
                  waitingForOperand := waitingForOperand prev;
                  hasError := false |}).
  { unfold backspace. rewrite E. reflexivity. }
  split; [|split; [|split; [|split; [|split; [|split; [|split]]]]]].
  - intros ev C. destruct ev; simpl in *; try discriminate; try reflexivity.
    + rewrite Hnum. reflexivity.
    + rewrite Hdec. reflexivity.
    + apply tableKey_fragment in C. destruct C as (fragment & _ & F).
      unfold handleFunction. rewrite F. reflexivity.
    + rewrite Hback. reflexivity.
  - intros ev C. destruct ev; simpl in *; try discriminate; try reflexivity.
    + rewrite Hnum. reflexivity.
    + rewrite Hdec. reflexivity.
    + apply tableKey_fragment in C. destruct C as (fragment & _ & F).
      unfold handleFunction. rewrite F. reflexivity.
  - intros num. rewrite Hnum. repeat split.
  - rewrite Hdec. repeat split.
  - exact Hback.
  - reflexivity.
  - unfold toggleSign. rewrite E, orb_true_r. reflexivity.
  - repeat split; simpl; try exact E.
    + destruct (angleMode prev); discriminate.
    + intros H. unfold calculate. rewrite H. reflexivity.
Qed.

Lemma error_state_events_witness :
  let s := failedEvaluation in
  hasError s = true
  /\ display s = lit "Error"
  /\ step ExampleRuntime.rt (InsertDigit (lit "7")) s
     = step ExampleRuntime.rt (InsertDigit (lit "7")) (errorCleared s)
  /\ display (step ExampleRuntime.rt (InsertDigit (lit "7")) s) = lit "7"
  /\ hasError (step ExampleRuntime.rt (InsertDigit (lit "7")) s) = false
  /\ toggleSign s = s
  /\ hasError (toggleAngleMode s) = true.
Proof.
  intros s.
  destruct (@error_state_events ExampleRuntime.rt s eq_refl)
    as [Hclear [Hsame [Hnum [_ [_ [_ [Hsign [[Hangle _] _]]]]]]]].
  split; [reflexivity|]. split; [reflexivity|].
  split; [apply Hsame; reflexivity|].
  split; [exact (proj1 (Hnum (lit "7")))|].
  split; [apply Hclear; reflexivity|].
  split; [exact Hsign | exact Hangle].
Defined.

(** ** The display after an operator key in the error state *)

Lemma run_reachable (rt : Runtime) (events : list Event) :
  forall s, reachable rt s -> reachable rt (run rt events s).
Proof.
  unfold run. induction events as [|ev events IH]; intros s R; simpl.
  - exact R.
  - apply IH. apply reachable_step. exact R.
Qed.

(** C10: [insertOperator] applied to an error state (display [Error],
    empty expression) clears [hasError], appends the operator token to
    the expression and leaves [Error] in the display; with an evaluator
    that rejects [2+], the keys 2, +, =, + lead from [initialState] to
    such a state, with [display] equal to [Error] and [hasError]
    false. *)
Theorem error_display_without_error_flag :
  forall rt,
    evaluate rt (lit "2+") = Throws ->
    (forall prev operator,
        hasError prev = true -> display prev = lit "Error" ->
        expression prev = lit "" ->
        hasError (insertOperator operator prev) = false
        /\ display (insertOperator operator prev) = lit "Error"
        /\ expression (insertOperator operator prev)
           = if isParenthesis operator then operator
             else mathOperator operator)
    /\ (let s := run rt [InsertDigit (lit "2"); InsertOperator (lit "+");
                         Evaluate; InsertOperator (lit "+")] initialState in
        reachable rt s
        /\ display s = lit "Error"
        /\ hasError s = false
        /\ expression s = lit "+").
Proof.
  intros rt Hthrows. split.
  - intros prev operator E D X. unfold insertOperator; simpl.
    rewrite D, X. destruct (isParenthesis operator); repeat split.
  - split; [apply run_reachable; constructor|].
    unfold run; simpl fold_left.
    change (insertOperator (lit "+") (insertNumber (lit "2") initialState))
      with {| display := lit "2"; expression := lit "2+";
              memory := 0%float; angleMode := DEG;
              previousAnswer := 0%float; waitingForOperand := true;
              hasError := false |}.
    rewrite calculate_Throws; [repeat split | discriminate | exact Hthrows].
Qed.

Lemma error_display_without_error_flag_witness :
  let s := run ExampleRuntime.rt
             [InsertDigit (lit "2"); InsertOperator (lit "+");
              Evaluate; InsertOperator (lit "+")] initialState in
  evaluate ExampleRuntime.rt (lit "2+") = Throws
  /\ reachable ExampleRuntime.rt s
  /\ display s = lit "Error"
  /\ hasError s = false
  /\ expression s = lit "+".
Proof.
  intros s. split; [reflexivity|].
  exact (proj2 (@error_display_without_error_flag ExampleRuntime.rt eq_refl)).
Defined.

(** ** Sequences of digit keys *)

Section DigitKeys.

Variable rt : Runtime.

Lemma insertNumber_expression (num : jsstring) (s : CalculatorState) :
  expression (insertNumber num s) = expression s ++ num.
Proof.
  unfold insertNumber.
  destruct (waitingForOperand s || JsString.eqb (display s) (lit "0")
            || hasError s); reflexivity.
Qed.

Lemma digits_expression (digits : jsstring) :
  forall s,
    expression (run rt (digitEvents digits) s) = expression s ++ digits.
Proof.
  unfold run. induction digits as [|d digits IH]; intros s; simpl.
  - rewrite app_nil_r; reflexivity.
  - rewrite IH, insertNumber_expression, <- app_assoc. reflexivity.
Qed.

Lemma digits_display_digits (digits : jsstring) :
  forallb JsString.isDigit digits = true ->
  forall s,
    forallb JsString.isDigit (display s) = true ->
    forallb JsString.isDigit (display (run rt (digitEvents digits) s))
    = true.
Proof.
  unfold run. induction digits as [|d digits IH]; intros Hd s Hs; simpl.
  - exact Hs.
  - simpl in Hd. apply andb_true_iff in Hd. destruct Hd as [Hd Hrest].
    apply IH; [exact Hrest|].
    unfold insertNumber.
    destruct (waitingForOperand s || JsString.eqb (display s) (lit "0")
              || hasError s); simpl.
    + rewrite Hd; reflexivity.
    + rewrite forallb_app, Hs; simpl. rewrite Hd; reflexivity.
Qed.

(** Once the display starts with a digit other than 0 and no flag is
    set, digit keys extend display and expression alike. *)
Lemma digits_display_expression (digits : jsstring) :
  forall s d r,
    waitingForOperand s = false -> hasError s = false ->
    display s = d :: r -> d <> 48%N ->
    display s = expression s ->
    display (run rt (digitEvents digits) s)
    = expression (run rt (digitEvents digits) s).
Proof.
  unfold run. induction digits as [|x digits IH]; intros s d r W E D N0 DE;
    simpl.
  - exact DE.
  - assert (Hstep : insertNumber [x] s =
              {| display := display s ++ [x];
                 expression := expression s ++ [x];
                 memory := memory s;
                 angleMode := angleMode s;
                 previousAnswer := previousAnswer s;
                 waitingForOperand := waitingForOperand s;
                 hasError := hasError s |}).
    { unfold insertNumber. rewrite W, E, D. simpl.
      apply N.eqb_neq in N0. rewrite N0. reflexivity. }
    rewrite Hstep.
    apply (IH _ d (r ++ [x])); simpl; try assumption.
    + rewrite D; reflexivity.
    + rewrite DE; reflexivity.
Qed.

End DigitKeys.

Lemma digits_no_decimalPoint (s : jsstring) :
  forallb JsString.isDigit s = true -> decimalPoints s = 0.
Proof.
  unfold decimalPoints. induction s as [|c s IH]; simpl; [reflexivity|].
  intros H. apply andb_true_iff in H. destruct H as [Hc Hs].
  destruct (N.eq_dec c 46) as [->|_]; [discriminate Hc | apply IH; exact Hs].
Qed.

(** C8 as stated fails: after the digit keys 0 and 5 the display is [5]
    and the expression is [05]. *)
Lemma digits_leading_zero :
  let s := run ExampleRuntime.rt (digitEvents (lit "05")) initialState in
  forallb JsString.isDigit (lit "05") = true
  /\ display s = lit "5"
  /\ expression s = lit "05"
  /\ display s <> expression s.
Proof. simpl. repeat split. discriminate. Qed.

(** C8, amended: after any sequence of digit keys from [initialState],
    the expression is the sequence of the digits, display and expression
    contain digits only, hence no decimal point, and display and
    expression are equal when the first digit is not 0. *)
Theorem digits_only :
  forall rt digits,
    forallb JsString.isDigit digits = true ->
    let s := run rt (digitEvents digits) initialState in
    expression s = digits
    /\ forallb JsString.isDigit (display s) = true
    /\ forallb JsString.isDigit (expression s) = true
    /\ decimalPoints (display s) <= 1
    /\ decimalPoints (expression s) <= 1
    /\ (forall d rest, digits = d :: rest -> d <> 48%N ->
                       display s = expression s).
Proof.
  intros rt digits Hd s.
  assert (He : expression s = digits) by apply digits_expression.
  assert (Hdisp : forallb JsString.isDigit (display s) = true)
    by (apply digits_display_digits; [exact Hd | reflexivity]).
  split; [exact He|]. split; [exact Hdisp|].
  split; [rewrite He; exact Hd|].
  split; [rewrite digits_no_decimalPoint; [lia | exact Hdisp]|].
  split; [rewrite digits_no_decimalPoint; [lia | rewrite He; exact Hd]|].
  intros d rest -> N0. subst s. unfold run; simpl.
  apply (@digits_display_expression rt rest _ d []); try reflexivity.
  exact N0.
Qed.

Lemma digits_only_witness :
  let s := run ExampleRuntime.rt (digitEvents (lit "5007")) initialState in
  forallb JsString.isDigit (lit "5007") = true
  /\ expression s = lit "5007"
  /\ display s = expression s.
Proof.
  intros s.
  destruct (@digits_only ExampleRuntime.rt (lit "5007") eq_refl)
    as [He [_ [_ [_ [_ Heq]]]]].
  split; [reflexivity|]. split; [exact He|].
  apply (Heq 53%N (lit "007")); [reflexivity | discriminate].
Defined.

(** ** Formatting *)

(** The test of the code, written with [x !== 0], is the one of the
    rule, written with [0 < |x|]. *)
Lemma outOfPlainRange_scientificRange (v : number) :
  outOfPlainRange v = true <-> scientificRange v.
Proof.
  unfold outOfPlainRange, scientificRange.
  change huge with 1e15%float.
  change tiny with 0x1.0c6f7a0b5ed8dp-20%float.
  rewrite orb_true_iff, andb_true_iff, negb_true_iff.
  assert (H : (abs v <? 0x1.0c6f7a0b5ed8dp-20)%float = true ->
              ((v =? 0)%float = false <-> (0 <? abs v)%float = true)).
  { rewrite eqb_spec, !ltb_spec, abs_spec.
    change (Prim2SF 0) with (S754_zero false).
    destruct (Prim2SF v) as [s | s | | s m e]; simpl; try discriminate.
    - intros _; destruct s; split; discriminate.
    - intros _; destruct s; split; reflexivity. }
  tauto.
Qed.

Lemma formatDisplay_Error (rt : Runtime) :
  formatDisplay rt (lit "Error") = lit "Error".
Proof. reflexivity. Qed.

Lemma formatDisplay_number (rt : Runtime) (value : jsstring) :
  value <> lit "Error" ->
  is_nan (parseFloat rt value) = false ->
  formatDisplay rt value =
    if outOfPlainRange (parseFloat rt value)
    then toExponential rt (parseFloat rt value) 6
    else if JsString.includes (lit ".") value
            && (12 <? JsString.length value)%nat
         then toPrecision rt (parseFloat rt value) 10
         else value.
Proof.
  intros Hne Hnan. unfold formatDisplay.
  apply eqb_neq in Hne. rewrite Hne, Hnan. reflexivity.
Qed.

Lemma calculate_number (rt : Runtime) (prev : CalculatorState)
  (result : number) :
  expression prev <> lit "" ->
  evaluate rt (evaluatorInput (angleMode prev) (expression prev))
    = ReturnsNumber result ->
  display (calculate rt prev) =
    if outOfPlainRange result
    then toExponential rt result 6
    else numberToString rt result.
Proof.
  intros Hne Hres. unfold calculate.
  destruct (expression prev) as [|c e] eqn:E.
  - exfalso; apply Hne; reflexivity.
  - rewrite Hres. reflexivity.
Qed.

(** C9: the formatting rule.  [formatDisplay] returns the literal
    [Error] as it is.  For any other string that parses to a number [v],
    it returns [v.toExponential(6)] exactly when [|v| > 1e15] or
    [0 < |v| < 1e-6]; otherwise it returns [v.toPrecision(10)] when the
    string contains a decimal point and has more than 12 characters, and
    the string itself when not.  [calculate] renders a numeric result
    with [toExponential(6)] under the same condition and with
    [toString] otherwise.  The condition is false at [1e15] and true at
    [1.0000001e15]; at the lower bound it is false at [1e-6], true at
    [9.9e-7] and at the binary64 value just below [1e-6], true as well
    for the negative of these values, and false at 0. *)
#[warnings="-inexact-float"]
Theorem formatting_rule :
  forall rt,
    formatDisplay rt (lit "Error") = lit "Error"
    /\ (forall value,
          value <> lit "Error" ->
          is_nan (parseFloat rt value) = false ->
          let v := parseFloat rt value in
          (scientificRange v ->
           formatDisplay rt value = toExponential rt v 6)
          /\ (~ scientificRange v ->
              JsString.includes (lit ".") value = true ->
              12 < JsString.length value ->
              formatDisplay rt value = toPrecision rt v 10)
          /\ (~ scientificRange v ->
              JsString.includes (lit ".") value = false
              \/ JsString.length value <= 12 ->
              formatDisplay rt value = value))
    /\ (forall prev result,
          expression prev <> lit "" ->
          evaluate rt (evaluatorInput (angleMode prev) (expression prev))
            = ReturnsNumber result ->
          (scientificRange result ->
           display (calculate rt prev) = toExponential rt result 6)
          /\ (~ scientificRange result ->
              display (calculate rt prev) = numberToString rt result))
    /\ ~ scientificRange 1e15%float
    /\ scientificRange 1.0000001e15%float
    /\ ~ scientificRange 1e-6%float
    /\ scientificRange 9.9e-7%float
    /\ scientificRange (next_down 1e-6)%float
    /\ scientificRange (-9.9e-7)%float
    /\ scientificRange (-1.0000001e15)%float
    /\ ~ scientificRange 0%float
    /\ outOfPlainRange 1e-6%float = false
    /\ outOfPlainRange 9.9e-7%float = true
    /\ outOfPlainRange 1e15%float = false
    /\ outOfPlainRange 1.0000001e15%float = true.
Proof.
  intros rt. split; [apply formatDisplay_Error|].
  split; [|split; [|repeat split]].
  - intros value Hne Hnan v.
    pose proof (formatDisplay_number rt Hne Hnan) as F. fold v in F.
    pose proof (outOfPlainRange_scientificRange v) as R.
    split; [|split].
    + intros S. apply R in S. rewrite S in F. exact F.
    + intros S Hdot Hlen.
      destruct (outOfPlainRange v); [exfalso; apply S, R; reflexivity|].
      apply Nat.ltb_lt in Hlen. rewrite Hdot, Hlen in F. exact F.
    + intros S Hshort.
      destruct (outOfPlainRange v); [exfalso; apply S, R; reflexivity|].
      destruct Hshort as [Hdot | Hlen].
      * rewrite Hdot in F. exact F.
      * apply Nat.ltb_ge in Hlen. rewrite Hlen, andb_false_r in F. exact F.
  - intros prev result Hne Hres.
    pose proof (calculate_number rt prev Hne Hres) as F.
    pose proof (outOfPlainRange_scientificRange result) as R.
    split; intros S.
    + apply R in S. rewrite S in F. exact F.
    + destruct (outOfPlainRange result); [exfalso; apply S, R; reflexivity|].
      exact F.
  - intros S. apply outOfPlainRange_scientificRange in S.
    vm_compute in S. discriminate.
  - apply outOfPlainRange_scientificRange. vm_compute. reflexivity.
  - intros [S | [_ S]]; vm_compute in S; discriminate.
  - right. split; vm_compute; reflexivity.
  - right. split; vm_compute; reflexivity.
  - right. split; vm_compute; reflexivity.
  - left. vm_compute. reflexivity.
  - intros [S | [S _]]; vm_compute in S; discriminate.
Qed.

Lemma formatting_rule_witness :
  let value := lit "1000000000000000" in
  value <> lit "Error"
  /\ parseFloat ExampleRuntime.rt value = 1e15%float
  /\ formatDisplay ExampleRuntime.rt value = value.
Proof.
  intros value.
  assert (Hne : value <> lit "Error") by (vm_compute; discriminate).
  assert (Hv : parseFloat ExampleRuntime.rt value = 1e15%float)
    by (vm_compute; reflexivity).
  split; [exact Hne|]. split; [exact Hv|].
  destruct (formatting_rule ExampleRuntime.rt) as [_ [F [_ [N15 _]]]].
  destruct (F value Hne) as [_ [_ Hplain]].
  - rewrite Hv; reflexivity.
  - apply Hplain.
    + rewrite Hv. exact N15.
    + left; reflexivity.
Defined.

(** * Further properties of the reducers *)

(** ** Keyboard *)

(** X1: the keys [+], [-], [*] and [/] append themselves to the
    expression: the handler turns [*], [/] and [-] into the glyphs of
    the buttons and [insertOperator] turns the glyphs back.  The key
    sets [waitingForOperand], clears [hasError] and leaves the display
    as it is. *)
Theorem keyboard_operator_keys :
  forall rt key prev,
    In key [lit "+"; lit "-"; lit "*"; lit "/"] ->
    handleKeyDown rt key prev =
      {| display := display prev;
         expression := expression prev ++ key;
         memory := memory prev;
         angleMode := angleMode prev;
         previousAnswer := previousAnswer prev;
         waitingForOperand := true;
         hasError := false |}.
Proof.
  intros rt key prev H. simpl in H.
  repeat (destruct H as [H | H]; [subst key; reflexivity|]).
  contradiction.
Qed.

Lemma keyboard_operator_keys_witness :
  In (lit "*") [lit "+"; lit "-"; lit "*"; lit "/"]
  /\ expression (handleKeyDown ExampleRuntime.rt (lit "*")
                   (insertNumber (lit "2") initialState)) = lit "2*".
Proof.
  assert (H : In (lit "*") [lit "+"; lit "-"; lit "*"; lit "/"])
    by (right; right; left; reflexivity).
  split; [exact H|].
  rewrite (@keyboard_operator_keys ExampleRuntime.rt (lit "*")
             (insertNumber (lit "2") initialState) H).
  reflexivity.
Defined.

Lemma string_le_nil_r (s : jsstring) : string_le s [] = true <-> s = [].
Proof. destruct s; simpl; split; congruence. Qed.

(** X2: the digit test of the handler, [key >= '0' && key <= '9'],
    compares strings: it accepts the keys whose first code unit is one
    of [0] to [8], whatever follows, and the key [9]; for a key of one
    code unit it is the test that the code unit is a digit. *)
Theorem keyboard_digit_keys :
  forall key,
    (isDigitKey key = true <->
     exists c rest, key = c :: rest
                    /\ ((48 <= c <= 56)%N \/ (c = 57%N /\ rest = [])))
    /\ (forall c, key = [c] -> isDigitKey key = JsString.isDigit c).
Proof.
  intros key. split.
  - destruct key as [|c rest].
    + split; [discriminate | intros (c & rest & H & _); discriminate].
    + unfold isDigitKey. change (lit "0") with [48%N].
      change (lit "9") with [57%N]. cbn [string_le].
      rewrite andb_true_iff. split.
      * intros [H0 H9]. exists c, rest. split; [reflexivity|].
        destruct (N.ltb_spec 48 c), (N.eqb_spec 48 c),
          (N.ltb_spec c 57), (N.eqb_spec c 57); try discriminate;
          try (left; lia).
        all: right; split; [assumption | apply string_le_nil_r; exact H9].
      * intros (c' & rest' & E & H). inversion E; subst c' rest'.
        destruct H as [H | [-> ->]]; [|split; reflexivity].
        destruct (N.ltb_spec 48 c), (N.eqb_spec 48 c),
          (N.ltb_spec c 57), (N.eqb_spec c 57); try lia;
          split; reflexivity.
  - intros c ->. unfold isDigitKey, JsString.isDigit.
    change (lit "0") with [48%N]. change (lit "9") with [57%N].
    cbn [string_le].
    destruct (N.ltb_spec 48 c), (N.eqb_spec 48 c),
      (N.ltb_spec c 57), (N.eqb_spec c 57),
      (N.leb_spec 48 c), (N.leb_spec c 57); try lia; reflexivity.
Qed.

(** X3: a key that fails the digit test and is none of [.], [+], [-],
    [*], [/], the parentheses, [Enter], [=], [Escape] and [Backspace]
    leaves the state as it is. *)
Theorem keyboard_unbound_key :
  forall rt key prev,
    isDigitKey key = false ->
    ~ In key boundKeys ->
    handleKeyDown rt key prev = prev.
Proof.
  intros rt key prev Hd Hk.
  assert (N : forall k, In k boundKeys -> JsString.eqb key k = false).
  { intros k Hin. apply eqb_neq. intros ->. exact (Hk Hin). }
  unfold handleKeyDown, isOperatorKey. rewrite Hd.
  rewrite !N; [reflexivity | unfold boundKeys; simpl; tauto ..].
Qed.

Lemma keyboard_unbound_key_witness :
  isDigitKey (lit "a") = false
  /\ ~ In (lit "a") boundKeys
  /\ handleKeyDown ExampleRuntime.rt (lit "a") failedEvaluation
     = failedEvaluation.
Proof.
  assert (Hd : isDigitKey (lit "a") = false) by reflexivity.
  assert (Hk : ~ In (lit "a") boundKeys).
  { intros H. simpl in H.
    repeat (destruct H as [H | H]; [discriminate|]). exact H. }
  split; [exact Hd|]. split; [exact Hk|].
  exact (@keyboard_unbound_key ExampleRuntime.rt (lit "a")
           failedEvaluation Hd Hk).
Defined.

Lemma isDigitKey_single (c : N) : isDigitKey [c] = JsString.isDigit c.
Proof.
  unfold isDigitKey, JsString.isDigit.
  change (lit "0") with [48%N]. change (lit "9") with [57%N].
  cbn [string_le].
  destruct (N.ltb_spec 48 c), (N.eqb_spec 48 c),
    (N.ltb_spec c 57), (N.eqb_spec c 57),
    (N.leb_spec 48 c), (N.leb_spec c 57); try lia; reflexivity.
Qed.

Lemma isDigitKey_head (c : N) (rest : jsstring) :
  JsString.isDigit c = false -> isDigitKey (c :: rest) = false.
Proof.
  unfold isDigitKey, JsString.isDigit.
  change (lit "0") with [48%N]. change (lit "9") with [57%N].
  cbn [string_le]. intros H.
  destruct (N.ltb_spec 48 c), (N.eqb_spec 48 c),
    (N.ltb_spec c 57), (N.eqb_spec c 57),
    (N.leb_spec 48 c), (N.leb_spec c 57);
    try lia; try discriminate; try reflexivity;
    rewrite ?andb_false_r; reflexivity.
Qed.

Lemma plainKey_isDigitKey (key : jsstring) :
  plainKey key = true -> isDigitKey key = singleDigit key.
Proof.
  destruct key as [|c [|c' rest]]; intros P.
  - reflexivity.
  - apply isDigitKey_single.
  - cbn [plainKey] in P. apply negb_true_iff in P.
    apply isDigitKey_head. exact P.
Qed.

Ltac bound_key key k :=
  let E := fresh "E" in
  destruct (JsString.eqb key k) eqn:E;
  [apply eqb_eq in E; subst key;
   split; [reflexivity | intros ev H; inversion H; exact I]|].

(** X4: on the keys a keyboard sends (one code unit, or a name that
    does not start with a digit) the handler follows the key binding of
    the specification: the state after the key is the state after the
    event the key is bound to, or the state before when the key is not
    bound, and the event of a digit key carries that one digit.  On a
    longer key whose first code unit is one of [0] to [8] the handler
    departs from the binding: it inserts the whole key as a number. *)
Theorem keyboard_binding :
  forall rt prev,
    (forall key,
        plainKey key = true ->
        handleKeyDown rt key prev
        = match keyBinding key with
          | Some ev => step rt ev prev
          | None => prev
          end
        /\ (forall ev, keyBinding key = Some ev -> keypadEvent ev))
    /\ (forall c rest,
           (48 <= c <= 56)%N -> rest <> [] ->
           keyBinding (c :: rest) = None
           /\ handleKeyDown rt (c :: rest) prev
              = insertNumber (c :: rest) prev).
Proof.
  intros rt prev. split.
  - intros key P.
    pose proof (plainKey_isDigitKey key P) as D.
    destruct (singleDigit key) eqn:S.
    + unfold handleKeyDown, keyBinding. rewrite D, S.
      split; [reflexivity|].
      intros ev H. inversion H. cbn [keypadEvent].
      destruct key as [|d [|d' rest]]; try discriminate S.
      exists d. split; [reflexivity | exact S].
    + bound_key key (lit "."). bound_key key (lit "+").
      bound_key key (lit "-"). bound_key key (lit "*").
      bound_key key (lit "/"). bound_key key (lit "(").
      bound_key key (lit ")"). bound_key key (lit "Enter").
      bound_key key (lit "="). bound_key key (lit "Escape").
      bound_key key (lit "Backspace").
      unfold handleKeyDown, isOperatorKey, keyBinding, keyBindings.
      cbn [find fst]. rewrite D, S, E, E0, E1, E2, E3, E4, E5, E6, E7, E8, E9.
      split; [reflexivity | discriminate].
  - intros c rest Hc Hrest.
    assert (Hd : JsString.isDigit c = true).
    { unfold JsString.isDigit.
      destruct (N.leb_spec 48 c), (N.leb_spec c 57); try lia; reflexivity. }
    assert (Hk : isDigitKey (c :: rest) = true).
    { unfold isDigitKey. change (lit "0") with [48%N].
      change (lit "9") with [57%N]. cbn [string_le].
      destruct (N.ltb_spec 48 c), (N.eqb_spec 48 c),
        (N.ltb_spec c 57), (N.eqb_spec c 57); try lia; reflexivity. }
    split.
    + unfold keyBinding.
      destruct rest as [|c' rest]; [congruence|]. cbn [singleDigit].
      unfold keyBindings. cbn [find fst].
      change (lit ".") with [46%N]. change (lit "+") with [43%N].
      change (lit "-") with [45%N]. change (lit "*") with [42%N].
      change (lit "/") with [47%N]. change (lit "(") with [40%N].
      change (lit ")") with [41%N]. change (lit "=") with [61%N].
      cbn [JsString.eqb]. rewrite !andb_false_r.
      assert (N1 : (c =? 69)%N = false) by (apply N.eqb_neq; lia).
      assert (N2 : (c =? 66)%N = false) by (apply N.eqb_neq; lia).
      change (lit "Enter") with (69%N :: lit "nter").
      change (lit "Escape") with (69%N :: lit "scape").
      change (lit "Backspace") with (66%N :: lit "ackspace").
      cbn [JsString.eqb]. rewrite N1, N2. reflexivity.
    + unfold handleKeyDown. rewrite Hk. reflexivity.
Qed.

Lemma keyboard_binding_witness :
  plainKey (lit "Enter") = true
  /\ plainKey (lit "7") = true
  /\ handleKeyDown ExampleRuntime.rt (lit "Enter") twoPlusTwo
     = step ExampleRuntime.rt Evaluate twoPlusTwo
  /\ handleKeyDown ExampleRuntime.rt (lit "7") twoPlusTwo
     = step ExampleRuntime.rt (InsertDigit (lit "7")) twoPlusTwo
  /\ handleKeyDown ExampleRuntime.rt (lit "5abc") twoPlusTwo
     = insertNumber (lit "5abc") twoPlusTwo.
Proof.
  destruct (@keyboard_binding ExampleRuntime.rt twoPlusTwo) as [Hb Hd].
  split; [reflexivity|]. split; [reflexivity|].
  split; [exact (proj1 (Hb (lit "Enter") eq_refl))|].
  split; [exact (proj1 (Hb (lit "7") eq_refl))|].
  apply (Hd 53%N (lit "abc")); [lia | discriminate].
Defined.

(** ** Decimal points *)

Lemma indexOf_from_decimalPoints (s : jsstring) :
  forall i, (0 <= i)%Z ->
    (JsString.indexOf_from i (lit ".") s = -1)%Z <-> decimalPoints s = 0.
Proof.
  unfold decimalPoints. change (lit ".") with [46%N].
  induction s as [|c s IH]; intros i Hi.
  - simpl. tauto.
  - cbn [JsString.indexOf_from JsString.startsWith count_occ].
    destruct (N.eqb_spec 46 c) as [<-|Hc]; simpl.
    + destruct (N.eq_dec 46 46) as [_|N]; [|congruence].
      split; [lia | discriminate].
    + destruct (N.eq_dec c 46) as [E|_]; [symmetry in E; contradiction|].
      apply IH. lia.
Qed.

Lemma indexOf_decimalPoints (s : jsstring) :
  (JsString.indexOf (lit ".") s =? -1)%Z = true <-> decimalPoints s = 0.
Proof.
  rewrite Z.eqb_eq. apply indexOf_from_decimalPoints. lia.
Qed.

Lemma decimalPoints_app (a b : jsstring) :
  decimalPoints (a ++ b) = decimalPoints a + decimalPoints b.
Proof. apply count_occ_app. Qed.

Lemma decimalPoints_dropLast (s : jsstring) :
  decimalPoints (JsString.dropLast s) <= decimalPoints s.
Proof.
  unfold decimalPoints, JsString.dropLast.
  induction s as [|c s IH]; [reflexivity|].
  destruct s as [|d s]; [simpl; lia|].
  change (removelast (c :: d :: s)) with (c :: removelast (d :: s)).
  cbn [count_occ] in *. destruct (N.eq_dec c 46); lia.
Qed.

Lemma decimalPoints_slice1 (s : jsstring) :
  decimalPoints (JsString.slice1 s) <= decimalPoints s.
Proof.
  unfold decimalPoints. destruct s as [|c s]; simpl; [lia|].
  destruct (N.eq_dec c 46); lia.
Qed.

(** X5: pressing the decimal point twice is pressing it once:
    [insertDecimal] leaves a state it has produced as it is. *)
Theorem insertDecimal_idempotent :
  forall prev, insertDecimal (insertDecimal prev) = insertDecimal prev.
Proof.
  intros prev.
  assert (Hdot : forall s,
             (JsString.indexOf (lit ".") (s ++ lit ".") =? -1)%Z = false).
  { intros s. apply not_true_iff_false. rewrite indexOf_decimalPoints.
    rewrite decimalPoints_app. change (decimalPoints (lit ".")) with 1. lia. }
  assert (Hkeep : forall r,
             waitingForOperand r = false -> hasError r = false ->
             (JsString.indexOf (lit ".") (display r) =? -1)%Z = false ->
             insertDecimal r = r).
  { intros r W E I. unfold insertDecimal. rewrite W, E, I. reflexivity. }
  apply Hkeep; unfold insertDecimal;
    destruct (waitingForOperand prev || hasError prev) eqn:C;
    try reflexivity;
    apply orb_false_iff in C; destruct C as [W E];
    destruct (JsString.indexOf (lit ".") (display prev) =? -1)%Z eqn:I;
    simpl; try assumption; apply Hdot.
Qed.

Lemma step_decimalPoints (rt : Runtime) (ev : Event) (s : CalculatorState) :
  numbersRenderOneDecimalPoint rt -> keypadEvent ev ->
  decimalPoints (display s) <= 1 ->
  decimalPoints (display (step rt ev s)) <= 1
  \/ (ev = Evaluate
      /\ exists rendering,
           evaluatesToOther rt s rendering
           /\ display (step rt ev s) = rendering).
Proof.
  intros (HtoString & HtoExp) Hev H.
  destruct ev; simpl; try (left; exact H); try (left; apply HtoString).
  - (* insertNumber *)
    left. destruct Hev as (d & -> & Hd).
    assert (D : decimalPoints [d] = 0)
      by (apply digits_no_decimalPoint; simpl; rewrite Hd; reflexivity).
    unfold insertNumber.
    destruct (waitingForOperand s || JsString.eqb (display s) (lit "0")
              || hasError s); simpl.
    + rewrite D. lia.
    + rewrite decimalPoints_app, D. lia.
  - (* insertDecimal *)
    left. unfold insertDecimal.
    destruct (waitingForOperand s || hasError s); simpl;
      [change (decimalPoints (lit "0.")) with 1; lia|].
    destruct (JsString.indexOf (lit ".") (display s) =? -1)%Z eqn:I;
      simpl; [|exact H].
    apply indexOf_decimalPoints in I.
    rewrite decimalPoints_app, I. change (decimalPoints (lit ".")) with 1.
    lia.
  - (* insertConstant *)
    left. destruct (JsString.eqb constant (lit "π"));
      [change (decimalPoints pi_toString) with 1
      |change (decimalPoints e_toString) with 1]; lia.
  - (* handleFunction *)
    left. unfold handleFunction. destruct (functionFragment func); exact H.
  - (* toggleSign *)
    left. unfold toggleSign.
    destruct (JsString.eqb (display s) (lit "0") || hasError s);
      [exact H|]; cbn [display].
    destruct (JsString.startsWith (lit "-") (display s)).
    + pose proof (decimalPoints_slice1 (display s)). lia.
    + rewrite decimalPoints_app. change (decimalPoints (lit "-")) with 0.
      lia.
  - (* backspace *)
    left. unfold backspace.
    destruct (hasError s || JsString.eqb (display s) (lit "0"));
      cbn [display]; [change (decimalPoints (lit "0")) with 0; lia|].
    destruct (1 <? JsString.length (display s))%nat.
    + pose proof (decimalPoints_dropLast (display s)). lia.
    + change (decimalPoints (lit "0")) with 0; lia.
  - (* clearAll *)
    left. change (decimalPoints (lit "0")) with 0; lia.
  - (* calculate *)
    unfold calculate, evaluatesToOther.
    destruct (expression s) as [|c e]; [left; exact H|].
    destruct (evaluate rt _) as [result | [rendering|] | ] eqn:R; simpl.
    + left.
      destruct (outOfPlainRange result); [apply HtoExp | apply HtoString].
    + right. split; [reflexivity|]. exists rendering.
      split; [split; [discriminate | reflexivity] | reflexivity].
    + left. change (decimalPoints (lit "Error")) with 0; lia.
    + left. change (decimalPoints (lit "Error")) with 0; lia.
Qed.

(** X6: the display holds two decimal points only as the rendering of
    an evaluation result that is not a number.  When the renderings of
    numbers have at most one decimal point, a keypad event (a digit
    event carrying one digit) keeps a display with at most one decimal
    point so, unless it is an Evaluate whose evaluator returns a value
    that is not a number, which then is the display whatever it holds.
    Hence after any sequence of keypad events from [initialState] in
    which every evaluation returns a number or fails, the display has at
    most one decimal point. *)
Theorem display_one_decimalPoint :
  forall rt,
    numbersRenderOneDecimalPoint rt ->
    (forall ev s,
        keypadEvent ev ->
        decimalPoints (display s) <= 1 ->
        decimalPoints (display (step rt ev s)) <= 1
        \/ (ev = Evaluate
            /\ exists rendering,
                 evaluatesToOther rt s rendering
                 /\ display (step rt ev s) = rendering))
    /\ (forall events,
           Forall keypadEvent events ->
           numericEvaluations rt events initialState ->
           decimalPoints (display (run rt events initialState)) <= 1).
Proof.
  intros rt Hrt. split.
  - intros ev s. apply step_decimalPoints. exact Hrt.
  - intros events Hev.
    assert (G : forall s, numericEvaluations rt events s ->
                          decimalPoints (display s) <= 1 ->
                          decimalPoints (display (run rt events s)) <= 1).
    { unfold run. induction Hev as [|ev events Hev _ IH];
        intros s Hnum Hs; simpl.
      - exact Hs.
      - destruct Hnum as [Hother Hnum]. apply IH; [exact Hnum|].
        destruct (@step_decimalPoints rt ev s Hrt Hev Hs)
          as [Hle | (-> & rendering & Ho & _)]; [exact Hle|].
        exfalso. exact (Hother eq_refl rendering Ho). }
    intros Hnum. apply G; [exact Hnum|].
    change (decimalPoints (display initialState)) with 0. lia.
Qed.

Lemma fourRuntime_numbersRenderOneDecimalPoint :
  numbersRenderOneDecimalPoint fourRuntime.
Proof.
  split; simpl; intros.
  - change (decimalPoints (lit "<toString>")) with 0. lia.
  - change (decimalPoints (lit "<toExponential>")) with 0. lia.
Qed.

Lemma display_one_decimalPoint_witness :
  let typed := [InsertDigit (lit "3"); InsertDecimal; InsertDigit (lit "1");
                InsertDecimal; InsertDigit (lit "4")] in
  let events := typed ++ [InsertOperator (lit "+"); InsertDigit (lit "1");
                          Evaluate; InsertDecimal; InsertDigit (lit "5")] in
  Forall keypadEvent events
  /\ numericEvaluations fourRuntime events initialState
  /\ display (run fourRuntime typed initialState) = lit "3.14"
  /\ previousAnswer (run fourRuntime events initialState) = 4%float
  /\ display (run fourRuntime events initialState) = lit "0.5"
  /\ decimalPoints (display (run fourRuntime events initialState)) <= 1.
Proof.
  intros typed events.
  assert (H : Forall keypadEvent events).
  { repeat constructor.
    - exists 51%N; split; reflexivity.
    - exists 49%N; split; reflexivity.
    - exists 52%N; split; reflexivity.
    - exists 49%N; split; reflexivity.
    - exists 53%N; split; reflexivity. }
  assert (Hn : numericEvaluations fourRuntime events initialState).
  { cbn [events typed app numericEvaluations].
    repeat split; try discriminate.
    intros _ rendering [_ Ho]. discriminate Ho. }
  split; [exact H|]. split; [exact Hn|].
  split; [reflexivity|]. split; [reflexivity|]. split; [reflexivity|].
  exact (proj2 (@display_one_decimalPoint fourRuntime
                  fourRuntime_numbersRenderOneDecimalPoint) events H Hn).
Defined.

(** The exception of X6 occurs: when the evaluator returns a complex
    number, its rendering, with two decimal points, is the display. *)
Lemma complex_result_two_decimalPoints :
  let s := run complexRuntime
             [ApplyFunction (lit "sin⁻¹"); InsertDigit (lit "2");
              InsertOperator (lit ")"); ToggleAngleMode; Evaluate]
             initialState in
  display s = lit "1.5707963267948966 - 1.3169578969248166i"
  /\ decimalPoints (display s) = 2
  /\ hasError s = false.
Proof. vm_compute. repeat split. Qed.

(** ** Backspace *)

Lemma eqb_long (s : jsstring) (c d : N) :
  s <> [] -> JsString.eqb (s ++ [c]) [d] = false.
Proof.
  intros Hs. apply eqb_neq. intros H.
  apply (f_equal (@List.length N)) in H.
  rewrite length_app in H. simpl in H.
  destruct s; [congruence | simpl in H; lia].
Qed.

Lemma length_long (s : jsstring) (c : N) :
  s <> [] -> (1 <? JsString.length (s ++ [c]))%nat = true.
Proof.
  intros Hs. apply Nat.ltb_lt. unfold JsString.length.
  rewrite length_app. simpl. destruct s; [congruence | simpl; lia].
Qed.

(** X7: Backspace undoes a digit key.  In a state with no flag set,
    inserting one code unit and pressing Backspace gives the state back,
    when the display is neither [0] nor empty, and also when the display
    is [0] and the code unit is not [0]. *)
Theorem backspace_after_digit :
  forall c prev,
    waitingForOperand prev = false -> hasError prev = false ->
    display prev <> lit "" ->
    (display prev = lit "0" -> c <> 48%N) ->
    backspace (insertNumber [c] prev) = prev.
Proof.
  intros c [d e m a p w h] W E Hne H0. simpl in *. subst w h.
  unfold insertNumber; simpl.
  destruct (JsString.eqb d (lit "0")) eqn:D.
  - apply eqb_eq in D. subst d. specialize (H0 eq_refl).
    unfold backspace; simpl.
    apply N.eqb_neq in H0. rewrite H0. simpl.
    unfold JsString.dropLast. rewrite removelast_last. reflexivity.
  - unfold backspace; simpl.
    change (lit "0") with [48%N]. rewrite eqb_long by exact Hne.
    rewrite length_long by exact Hne.
    unfold JsString.dropLast. rewrite !removelast_last. reflexivity.
Qed.

Lemma backspace_after_digit_witness :
  let prev := run ExampleRuntime.rt
                [InsertDigit (lit "1"); InsertOperator (lit "+");
                 InsertDigit (lit "2")] initialState in
  display prev = lit "2"
  /\ expression (insertNumber (lit "5") prev) = lit "1+25"
  /\ backspace (insertNumber (lit "5") prev) = prev.
Proof.
  intros prev. split; [reflexivity|]. split; [reflexivity|].
  apply (@backspace_after_digit 53%N prev); try reflexivity.
  - discriminate.
  - discriminate.
Defined.

(** X8: Backspace on a display that reads [0] empties the whole
    expression.  So when the digit [0] starts a number (after an
    operator, on a display [0], or after an error), Backspace removes
    not this digit alone but everything entered before it as well. *)
Theorem backspace_after_zero :
  forall prev,
    waitingForOperand prev || JsString.eqb (display prev) (lit "0")
    || hasError prev = true ->
    expression (insertNumber (lit "0") prev) = expression prev ++ lit "0"
    /\ expression (backspace (insertNumber (lit "0") prev)) = lit ""
    /\ display (backspace (insertNumber (lit "0") prev)) = lit "0".
Proof.
  intros prev H. unfold insertNumber. rewrite H.
  unfold backspace; simpl. repeat split.
Qed.

Lemma backspace_after_zero_witness :
  let prev := run ExampleRuntime.rt
                [InsertDigit (lit "5"); InsertOperator (lit "+")]
                initialState in
  expression (insertNumber (lit "0") prev) = lit "5+0"
  /\ expression (backspace (insertNumber (lit "0") prev)) = lit "".
Proof.
  intros prev.
  destruct (@backspace_after_zero prev eq_refl) as [H1 [H2 _]].
  split; [exact H1 | exact H2].
Defined.

(** X9: Backspace never leaves the display empty and never makes the
    expression longer. *)
Theorem backspace_bounds :
  forall prev,
    display (backspace prev) <> lit ""
    /\ List.length (expression (backspace prev))
       <= List.length (expression prev).
Proof.
  intros prev. unfold backspace.
  destruct (hasError prev || JsString.eqb (display prev) (lit "0")); simpl.
  - split; [discriminate | lia].
  - split.
    + destruct (display prev) as [|x [|y s]]; simpl; discriminate.
    + unfold JsString.dropLast.
      destruct (expression prev) as [|x e] using rev_ind; [simpl; lia|].
      rewrite removelast_last, length_app. lia.
Qed.

(** ** Sign *)

Lemma startsWith_minus (s : jsstring) :
  JsString.startsWith (lit "-") s = true -> s = 45%N :: JsString.slice1 s.
Proof.
  change (lit "-") with [45%N].
  destruct s as [|c s]; cbn [JsString.startsWith JsString.slice1 tl];
    [discriminate|].
  rewrite andb_true_r. intros H. apply N.eqb_eq in H. subst c. reflexivity.
Qed.

(** X10: the sign key pressed twice gives the state back, when the
    state has no error, the display is not [0] and, if the display
    starts with a minus sign, what follows the sign is not [0] and does
    not start with a second minus sign. *)
Theorem toggleSign_twice :
  forall prev,
    hasError prev = false ->
    display prev <> lit "0" ->
    (JsString.startsWith (lit "-") (display prev) = true ->
     JsString.slice1 (display prev) <> lit "0"
     /\ JsString.startsWith (lit "-") (JsString.slice1 (display prev))
        = false) ->
    toggleSign (toggleSign prev) = prev.
Proof.
  intros [d e m a p w h] E D0 Hminus.
  cbn [hasError display] in *. subst h.
  apply eqb_neq in D0.
  unfold toggleSign at 2; cbn [hasError display]. rewrite D0; cbn [orb].
  destruct (JsString.startsWith (lit "-") d) eqn:S.
  - destruct (Hminus eq_refl) as [R0 Rm]. apply eqb_neq in R0.
    unfold toggleSign; cbn [hasError display]. rewrite R0, Rm; cbn [orb].
    change (lit "-" ++ JsString.slice1 d) with (45%N :: JsString.slice1 d).
    rewrite <- (startsWith_minus d S). reflexivity.
  - unfold toggleSign; cbn [hasError display].
    change (lit "-" ++ d) with (45%N :: d). reflexivity.
Qed.

Lemma toggleSign_twice_witness :
  let prev := run ExampleRuntime.rt
                [InsertDigit (lit "4"); InsertDigit (lit "2")]
                initialState in
  display (toggleSign prev) = lit "-42"
  /\ toggleSign (toggleSign prev) = prev
  /\ toggleSign (toggleSign (toggleSign prev)) = toggleSign prev.
Proof.
  intros prev. split; [reflexivity|]. split.
  - apply (@toggleSign_twice prev); try reflexivity; discriminate.
  - apply (@toggleSign_twice (toggleSign prev)); try reflexivity.
    + discriminate.
    + intros _. split; [discriminate | reflexivity].
Defined.

(** X11: the sign key does not reach the evaluation: it changes the
    display only, and [calculate] overwrites the display, so for a
    non-empty expression evaluating after the sign key gives the state
    that evaluating without it gives. *)
Theorem calculate_ignores_toggleSign :
  forall rt prev,
    expression prev <> lit "" ->
    calculate rt (toggleSign prev) = calculate rt prev.
Proof.
  intros rt prev Hne. unfold toggleSign.
  destruct (JsString.eqb (display prev) (lit "0") || hasError prev);
    [reflexivity|].
  unfold calculate; simpl.
  destruct (expression prev) as [|c e]; [exfalso; apply Hne; reflexivity|].
  destruct (evaluate rt _) as [result | [rendering|] | ]; reflexivity.
Qed.

Lemma calculate_ignores_toggleSign_witness :
  let prev := run ExampleRuntime.rt
                [InsertDigit (lit "4"); InsertDigit (lit "2")]
                initialState in
  expression prev <> lit ""
  /\ display (toggleSign prev) = lit "-42"
  /\ expression (toggleSign prev) = lit "42"
  /\ calculate ExampleRuntime.rt (toggleSign prev)
     = calculate ExampleRuntime.rt prev.
Proof.
  intros prev.
  assert (H : expression prev <> lit "") by discriminate.
  split; [exact H|]. split; [reflexivity|]. split; [reflexivity|].
  exact (@calculate_ignores_toggleSign ExampleRuntime.rt prev H).
Defined.

(** ** Evaluation *)

Lemma calculate_expression (rt : Runtime) (prev : CalculatorState) :
  expression (calculate rt prev) = lit "".
Proof.
  unfold calculate. destruct (expression prev) as [|c e] eqn:E; [exact E|].
  destruct (evaluate rt _) as [result | [rendering|] | ]; reflexivity.
Qed.

(** X12: after Evaluate the expression is empty, whatever the evaluator
    did, and Evaluate pressed again changes nothing. *)
Theorem calculate_idempotent :
  forall rt prev,
    expression (calculate rt prev) = lit ""
    /\ calculate rt (calculate rt prev) = calculate rt prev.
Proof.
  intros rt prev. split; [apply calculate_expression|].
  unfold calculate at 1. rewrite calculate_expression. reflexivity.
Qed.

Lemma calculate_ReturnsNumber (rt : Runtime) (prev : CalculatorState)
  (result : number) :
  expression prev <> lit "" ->
  evaluate rt (evaluatorInput (angleMode prev) (expression prev))
    = ReturnsNumber result ->
  calculate rt prev =
    {| display := if outOfPlainRange result
                  then toExponential rt result 6
                  else numberToString rt result;
       expression := lit "";
       memory := memory prev;
       angleMode := angleMode prev;
       previousAnswer := result;
       waitingForOperand := true;
       hasError := false |}.
Proof.
  intros Hne Hres. unfold calculate.
  destruct (expression prev) as [|c e]; [exfalso; apply Hne; reflexivity|].
  rewrite Hres. reflexivity.
Qed.

(** X13: the result of an evaluation is shown but not carried into the
    next expression.  After an evaluation that returned a number, a
    digit key starts display and expression afresh with that digit, and
    an operator key makes the expression the operator alone while the
    display still shows the result. *)
Theorem after_result_fresh_expression :
  forall rt prev result,
    expression prev <> lit "" ->
    evaluate rt (evaluatorInput (angleMode prev) (expression prev))
      = ReturnsNumber result ->
    (forall num,
        display (insertNumber num (calculate rt prev)) = num
        /\ expression (insertNumber num (calculate rt prev)) = num)
    /\ (forall operator,
           display (insertOperator operator (calculate rt prev))
           = display (calculate rt prev)
           /\ expression (insertOperator operator (calculate rt prev))
              = if isParenthesis operator then operator
                else mathOperator operator).
Proof.
  intros rt prev result Hne Hres.
  rewrite (calculate_ReturnsNumber rt prev Hne Hres). split.
  - intros num. unfold insertNumber; simpl. split; reflexivity.
  - intros operator. unfold insertOperator; simpl.
    destruct (isParenthesis operator); split; reflexivity.
Qed.

Lemma after_result_fresh_expression_witness :
  expression twoPlusTwo = lit "2+2"
  /\ previousAnswer (calculate fourRuntime twoPlusTwo) = 4%float
  /\ expression (insertOperator (lit "+") (calculate fourRuntime twoPlusTwo))
     = lit "+".
Proof.
  split; [reflexivity|]. split; [reflexivity|].
  assert (Hne : expression twoPlusTwo <> lit "") by discriminate.
  destruct (@after_result_fresh_expression fourRuntime twoPlusTwo 4%float
              Hne eq_refl) as [_ H].
  exact (proj2 (H (lit "+"))).
Defined.

(** X14: the answer key brings back the result just computed: after an
    evaluation that returned the number [result], [insertAnswer] makes
    display and expression the rendering of [result]. *)
Theorem insertAnswer_after_result :
  forall rt prev result,
    expression prev <> lit "" ->
    evaluate rt (evaluatorInput (angleMode prev) (expression prev))
      = ReturnsNumber result ->
    display (insertAnswer rt (calculate rt prev)) = numberToString rt result
    /\ expression (insertAnswer rt (calculate rt prev))
       = numberToString rt result
    /\ waitingForOperand (insertAnswer rt (calculate rt prev)) = false.
Proof.
  intros rt prev result Hne Hres.
  rewrite (calculate_ReturnsNumber rt prev Hne Hres).
  unfold insertAnswer; simpl. repeat split.
Qed.

Lemma insertAnswer_after_result_witness :
  expression twoPlusTwo <> lit ""
  /\ expression (insertAnswer fourRuntime (calculate fourRuntime twoPlusTwo))
     = numberToString fourRuntime 4%float.
Proof.
  assert (Hne : expression twoPlusTwo <> lit "") by discriminate.
  split; [exact Hne|].
  destruct (@insertAnswer_after_result fourRuntime twoPlusTwo 4%float
              Hne eq_refl) as [_ [H _]].
  exact H.
Defined.

(** X15: a failed evaluation leaves [waitingForOperand] as it was: when
    it fails right after an operator key, the resulting state has
    [waitingForOperand] and [hasError] both true; memory and angle mode
    are kept as well. *)
Theorem calculate_failure_keeps_flags :
  forall rt prev,
    expression prev <> lit "" ->
    evaluate rt (evaluatorInput (angleMode prev) (expression prev)) = Throws ->
    waitingForOperand (calculate rt prev) = waitingForOperand prev
    /\ memory (calculate rt prev) = memory prev
    /\ angleMode (calculate rt prev) = angleMode prev
    /\ (waitingForOperand prev = true ->
        waitingForOperand (calculate rt prev) = true
        /\ hasError (calculate rt prev) = true).
Proof.
  intros rt prev Hne Hthrows.
  rewrite (calculate_Throws rt prev Hne Hthrows). simpl.
  repeat split. assumption.
Qed.

Lemma calculate_failure_keeps_flags_witness :
  let prev := run ExampleRuntime.rt
                [InsertDigit (lit "2"); InsertOperator (lit "+")]
                initialState in
  waitingForOperand prev = true
  /\ waitingForOperand (calculate ExampleRuntime.rt prev) = true
  /\ hasError (calculate ExampleRuntime.rt prev) = true.
Proof.
  intros prev. split; [reflexivity|].
  assert (Hne : expression prev <> lit "") by discriminate.
  destruct (@calculate_failure_keeps_flags ExampleRuntime.rt prev
              Hne eq_refl) as [_ [_ [_ H]]].
  apply H. reflexivity.
Defined.

(** ** What the events leave alone *)

(** X16: what has been entered is not rewritten: every event other than
    Backspace, ClearAll and Evaluate leaves the expression as it is or
    appends to it. *)
Theorem expression_only_grows :
  forall rt ev prev,
    appendsToExpression ev = true ->
    exists suffix,
      expression (step rt ev prev) = expression prev ++ suffix.
Proof.
  intros rt ev prev H.
  destruct ev; simpl in *; try discriminate;
    try (exists []; rewrite app_nil_r; reflexivity);
    try (eexists; reflexivity).
  - eexists. apply insertNumber_expression.
  - unfold insertOperator; simpl.
    destruct (isParenthesis operator); eexists; reflexivity.
  - unfold insertDecimal.
    destruct (waitingForOperand prev || hasError prev);
      [eexists; reflexivity|].
    destruct (JsString.indexOf (lit ".") (display prev) =? -1)%Z;
      [eexists; reflexivity | exists []; rewrite app_nil_r; reflexivity].
  - unfold handleFunction.
    destruct (functionFragment func);
      [eexists; reflexivity | exists []; rewrite app_nil_r; reflexivity].
  - unfold toggleSign.
    destruct (JsString.eqb (display prev) (lit "0") || hasError prev);
      exists []; rewrite app_nil_r; reflexivity.
Qed.

Lemma expression_only_grows_witness :
  appendsToExpression (ApplyFunction (lit "sin")) = true
  /\ exists suffix,
       expression (step ExampleRuntime.rt (ApplyFunction (lit "sin"))
                     twoPlusTwo)
       = expression twoPlusTwo ++ suffix.
Proof.
  split; [reflexivity|].
  exact (@expression_only_grows ExampleRuntime.rt (ApplyFunction (lit "sin"))
           twoPlusTwo eq_refl).
Defined.

(** X17: the memory register is written by MemoryAdd, MemorySubtract,
    MemoryClear and ClearAll only; every other event, a failed or
    successful evaluation included, leaves it as it is. *)
Theorem memory_written_by_memory_events :
  forall rt ev prev,
    ev <> MemoryAdd -> ev <> MemorySubtract -> ev <> MemoryClear ->
    ev <> ClearAll ->
    memory (step rt ev prev) = memory prev.
Proof.
  intros rt ev prev Ha Hs Hc Hall.
  destruct ev; simpl; try congruence; try reflexivity.
  - unfold insertNumber.
    destruct (waitingForOperand prev || JsString.eqb (display prev) (lit "0")
              || hasError prev); reflexivity.
  - unfold insertDecimal.
    destruct (waitingForOperand prev || hasError prev); [reflexivity|].
    destruct (JsString.indexOf (lit ".") (display prev) =? -1)%Z;
      reflexivity.
  - unfold handleFunction. destruct (functionFragment func); reflexivity.
  - unfold toggleSign.
    destruct (JsString.eqb (display prev) (lit "0") || hasError prev);
      reflexivity.
  - unfold backspace.
    destruct (hasError prev || JsString.eqb (display prev) (lit "0"));
      reflexivity.
  - unfold calculate. destruct (expression prev); [reflexivity|].
    destruct (evaluate rt _) as [result | [rendering|] | ]; reflexivity.
Qed.

Lemma memory_written_by_memory_events_witness :
  Evaluate <> MemoryAdd
  /\ memory (step ExampleRuntime.rt Evaluate twoPlusTwo) = memory twoPlusTwo.
Proof.
  split; [discriminate|].
  apply memory_written_by_memory_events; discriminate.
Defined.

(** X18: the angle mode is changed by ToggleAngleMode and ClearAll only,
    and the answer register by Evaluate and ClearAll only. *)
Theorem angleMode_previousAnswer_frame :
  forall rt ev prev,
    ev <> ClearAll ->
    (ev <> ToggleAngleMode -> angleMode (step rt ev prev) = angleMode prev)
    /\ (ev <> Evaluate ->
        previousAnswer (step rt ev prev) = previousAnswer prev).
Proof.
  intros rt ev prev Hall.
  destruct ev; simpl; split; intros H; try congruence; try reflexivity.
  1, 2: unfold insertNumber;
    destruct (waitingForOperand prev || JsString.eqb (display prev) (lit "0")
              || hasError prev); reflexivity.
  1, 2: unfold insertDecimal;
    destruct (waitingForOperand prev || hasError prev); [reflexivity|];
    destruct (JsString.indexOf (lit ".") (display prev) =? -1)%Z;
    reflexivity.
  1, 2: unfold handleFunction; destruct (functionFragment func); reflexivity.
  1, 2: unfold toggleSign;
    destruct (JsString.eqb (display prev) (lit "0") || hasError prev);
    reflexivity.
  1, 2: unfold backspace;
    destruct (hasError prev || JsString.eqb (display prev) (lit "0"));
    reflexivity.
  unfold calculate. destruct (expression prev); [reflexivity|].
  destruct (evaluate rt _) as [result | [rendering|] | ]; reflexivity.
Qed.

Lemma angleMode_previousAnswer_frame_witness :
  Evaluate <> ClearAll
  /\ angleMode (step fourRuntime Evaluate twoPlusTwo) = angleMode twoPlusTwo.
Proof.
  split; [discriminate|].
  apply (@angleMode_previousAnswer_frame fourRuntime Evaluate twoPlusTwo);
    discriminate.
Defined.

(** X19: the angle key pressed twice gives the state back, and it
    changes nothing but the angle mode. *)
Theorem toggleAngleMode_twice :
  forall prev,
    toggleAngleMode (toggleAngleMode prev) = prev
    /\ angleMode (toggleAngleMode prev) <> angleMode prev
    /\ toggleAngleMode prev =
       {| display := display prev;
          expression := expression prev;
          memory := memory prev;
          angleMode := angleMode (toggleAngleMode prev);
          previousAnswer := previousAnswer prev;
          waitingForOperand := waitingForOperand prev;
          hasError := hasError prev |}.
Proof.
  intros [d e m a p w h]. unfold toggleAngleMode; simpl.
  destruct a; repeat split; discriminate.
Qed.

(** ** Operators and function keys *)

(** X20: no glyph of an operator button enters the expression: the
    token [insertOperator] appends is never [×], [÷] or [−], whatever
    the operator it is called with. *)
Theorem insertOperator_no_glyph :
  forall operator prev,
    exists token,
      expression (insertOperator operator prev) = expression prev ++ token
      /\ ~ In token operatorGlyphs.
Proof.
  intros operator prev. unfold insertOperator; simpl.
  unfold operatorGlyphs.
  destruct (isParenthesis operator) eqn:P.
  - exists operator. split; [reflexivity|].
    unfold isParenthesis in P. apply orb_true_iff in P.
    destruct P as [P | P]; apply eqb_eq in P; subst operator;
      simpl; intros H; repeat (destruct H as [H | H]; [discriminate|]);
      exact H.
  - exists (mathOperator operator). split; [reflexivity|].
    unfold mathOperator.
    destruct (JsString.eqb operator (lit "×")) eqn:E1;
      [simpl; intros H; repeat (destruct H as [H | H]; [discriminate|]);
       exact H|].
    destruct (JsString.eqb operator (lit "÷")) eqn:E2;
      [simpl; intros H; repeat (destruct H as [H | H]; [discriminate|]);
       exact H|].
    destruct (JsString.eqb operator (lit "−")) eqn:E3;
      [simpl; intros H; repeat (destruct H as [H | H]; [discriminate|]);
       exact H|].
    apply eqb_neq in E1, E2, E3.
    intros [H | [H | [H | H]]]; try (symmetry in H; contradiction).
    exact H.
Qed.

Ltac eqb_case func k H :=
  destruct (JsString.eqb func k) eqn:H;
  [apply eqb_eq in H; subst func|].

(** X21: the [switch] of [handleFunction] knows the keys of the table
    and no other: a key has a fragment exactly when the table lists it
    with that fragment, and a key the table does not list leaves the
    state as it is. *)
Theorem functionFragment_table :
  forall func,
    (forall fragment,
        functionFragment func = Some fragment
        <-> In (func, fragment) functionTable)
    /\ (~ In func (map fst functionTable) ->
        forall prev, handleFunction func prev = prev).
Proof.
  intros func.
  assert (Hiff : forall fragment,
             functionFragment func = Some fragment
             <-> In (func, fragment) functionTable).
  { intros fragment. split.
    - unfold functionFragment.
      eqb_case func (lit "sin") E1;
        [intros H; inversion H; vm_compute; tauto|].
      eqb_case func (lit "cos") E2;
        [intros H; inversion H; vm_compute; tauto|].
      eqb_case func (lit "tan") E3;
        [intros H; inversion H; vm_compute; tauto|].
      cbn [orb].
      eqb_case func (lit "sin⁻¹") E4;
        [intros H; inversion H; vm_compute; tauto|].
      eqb_case func (lit "cos⁻¹") E5;
        [intros H; inversion H; vm_compute; tauto|].
      eqb_case func (lit "tan⁻¹") E6;
        [intros H; inversion H; vm_compute; tauto|].
      eqb_case func (lit "ln") E7;
        [intros H; inversion H; vm_compute; tauto|].
      eqb_case func (lit "log") E8;
        [intros H; inversion H; vm_compute; tauto|].
      eqb_case func (lit "√x") E9;
        [intros H; inversion H; vm_compute; tauto|].
      eqb_case func (lit "³√x") E10;
        [intros H; inversion H; vm_compute; tauto|].
      eqb_case func (lit "x²") E11;
        [intros H; inversion H; vm_compute; tauto|].
      eqb_case func (lit "x³") E12;
        [intros H; inversion H; vm_compute; tauto|].
      eqb_case func (lit "x^y") E13;
        [intros H; inversion H; vm_compute; tauto|].
      eqb_case func (lit "eˣ") E14;
        [intros H; inversion H; vm_compute; tauto|].
      eqb_case func (lit "10ˣ") E15;
        [intros H; inversion H; vm_compute; tauto|].
      eqb_case func (lit "1/x") E16;
        [intros H; inversion H; vm_compute; tauto|].
      eqb_case func (lit "n!") E17;
        [intros H; inversion H; vm_compute; tauto|].
      eqb_case func (lit "%") E18;
        [intros H; inversion H; vm_compute; tauto|].
      eqb_case func (lit "y√x") E19;
        [intros H; inversion H; vm_compute; tauto|].
      discriminate.
    - intros H. unfold functionTable in H; simpl in H.
      repeat (destruct H as [H | H]; [inversion H; subst; reflexivity|]).
      contradiction. }
  split; [exact Hiff|].
  intros Hnot prev. unfold handleFunction.
  destruct (functionFragment func) as [fragment|] eqn:F; [|reflexivity].
  exfalso. apply Hnot.
  change func with (fst (func, fragment)). apply in_map.
  exact (proj1 (Hiff fragment) eq_refl).
Qed.

(** ** Rewriting of the expression *)

Lemma replaceAll_absent (p r s : jsstring) :
  JsString.includes p s = false -> JsString.replaceAll p r s = s.
Proof.
  induction s as [|c s IH]; intros H.
  - apply replaceAll_nil.
  - cbn [JsString.includes] in H. apply orb_false_iff in H.
    destruct H as [H1 H2].
    rewrite replaceAll_no_match by exact H1. rewrite IH by exact H2.
    reflexivity.
Qed.

Lemma startsWith_tail (c : N) (p s : jsstring) :
  JsString.startsWith (c :: p) s = true ->
  JsString.startsWith p (JsString.slice1 s) = true.
Proof.
  destruct s as [|x s]; cbn [JsString.startsWith JsString.slice1 tl];
    [discriminate|].
  intros H. apply andb_true_iff in H. exact (proj2 H).
Qed.

Lemma includes_startsWith (p s : jsstring) :
  JsString.startsWith p s = true -> JsString.includes p s = true.
Proof.
  intros H. destruct s; cbn [JsString.includes]; rewrite H; reflexivity.
Qed.

Lemma includes_tail (c : N) (p s : jsstring) :
  JsString.includes p s = false -> JsString.includes (c :: p) s = false.
Proof.
  induction s as [|x s IH]; intros H.
  - reflexivity.
  - cbn [JsString.includes] in *. apply orb_false_iff in H.
    destruct H as [H1 H2]. rewrite (IH H2), orb_false_r.
    apply not_true_iff_false. intros S.
    apply startsWith_tail in S. cbn [JsString.slice1 tl] in S.
    apply includes_startsWith in S. congruence.
Qed.

(** X22: the rewriting for degrees touches trigonometric calls only: an
    expression that contains none of [sin(], [cos(] and [tan(] (hence
    none of the inverse calls, which end in them) is handed on as it
    is, in DEG mode as in RAD mode. *)
Theorem angleRewrite_without_trig :
  forall mode expression,
    JsString.includes (lit "sin(") expression = false ->
    JsString.includes (lit "cos(") expression = false ->
    JsString.includes (lit "tan(") expression = false ->
    angleRewrite mode expression = expression.
Proof.
  intros mode expression Hs Hc Ht.
  destruct mode; [|reflexivity].
  unfold angleRewrite, degreesRewrite.
  rewrite (replaceAll_absent _ _ _ Hs).
  rewrite (replaceAll_absent _ _ _ Hc).
  rewrite (replaceAll_absent _ _ _ Ht).
  rewrite (replaceAll_absent (lit "asin(") _ _ (includes_tail 97 _ _ Hs)).
  rewrite (replaceAll_absent (lit "acos(") _ _ (includes_tail 97 _ _ Hc)).
  rewrite (replaceAll_absent (lit "atan(") _ _ (includes_tail 97 _ _ Ht)).
  reflexivity.
Qed.

Lemma angleRewrite_without_trig_witness :
  JsString.includes (lit "sin(") (lit "sqrt(2)+log10(4)") = false
  /\ angleRewrite DEG (lit "sqrt(2)+log10(4)") = lit "sqrt(2)+log10(4)".
Proof.
  split; [reflexivity|].
  apply angleRewrite_without_trig; reflexivity.
Defined.

Lemma replaceAll_other_head (p r : jsstring) (x c : N) (s : jsstring) :
  x <> c ->
  JsString.replaceAll (x :: p) r (c :: s)
  = c :: JsString.replaceAll (x :: p) r s.
Proof.
  intros H. apply replaceAll_no_match. cbn [JsString.startsWith].
  apply N.eqb_neq in H. rewrite H. reflexivity.
Qed.

(** X23: in DEG mode a direct trigonometric call at the head of an
    expression gets its argument multiplied and the rest of the
    expression is rewritten on its own: [sin(] followed by [rest]
    becomes [sin((pi/180)*] followed by the rewriting of [rest], and
    likewise for [cos(] and [tan(].  A code unit other than [s], [c],
    [t] and [a] at the head is kept and the rest rewritten. *)
Theorem degreesRewrite_direct_call :
  forall rest,
    degreesRewrite (lit "sin(" ++ rest)
      = lit "sin((pi/180)*" ++ degreesRewrite rest
    /\ degreesRewrite (lit "cos(" ++ rest)
       = lit "cos((pi/180)*" ++ degreesRewrite rest
    /\ degreesRewrite (lit "tan(" ++ rest)
       = lit "tan((pi/180)*" ++ degreesRewrite rest
    /\ (forall c,
           c <> 115%N -> c <> 99%N -> c <> 116%N -> c <> 97%N ->
           degreesRewrite (c :: rest) = c :: degreesRewrite rest).
Proof.
  intros rest. split; [|split; [|split]].
  - unfold degreesRewrite, JsString.replaceAll. simpl. reflexivity.
  - unfold degreesRewrite, JsString.replaceAll. simpl. reflexivity.
  - unfold degreesRewrite, JsString.replaceAll. simpl. reflexivity.
  - intros c Hs Hc Ht Ha. unfold degreesRewrite.
    change (lit "sin(") with (115%N :: lit "in(").
    change (lit "cos(") with (99%N :: lit "os(").
    change (lit "tan(") with (116%N :: lit "an(").
    change (lit "asin(") with (97%N :: lit "sin(").
    change (lit "acos(") with (97%N :: lit "cos(").
    change (lit "atan(") with (97%N :: lit "tan(").
    rewrite !replaceAll_other_head by congruence. reflexivity.
Qed.

(** X24: in DEG mode an inverse trigonometric call at the head of an
    expression gets both conversions: [asin(] followed by [rest] becomes
    [(180/pi)*asin((pi/180)*] followed by the rewriting of [rest], and
    likewise for [acos(] and [atan(]. *)
Theorem degreesRewrite_inverse_call :
  forall rest,
    degreesRewrite (lit "asin(" ++ rest)
      = lit "(180/pi)*asin((pi/180)*" ++ degreesRewrite rest
    /\ degreesRewrite (lit "acos(" ++ rest)
       = lit "(180/pi)*acos((pi/180)*" ++ degreesRewrite rest
    /\ degreesRewrite (lit "atan(" ++ rest)
       = lit "(180/pi)*atan((pi/180)*" ++ degreesRewrite rest.
Proof.
  intros rest. repeat split;
    unfold degreesRewrite, JsString.replaceAll; simpl; reflexivity.
Qed.

(** ** Constants *)

Lemma hasBareE_e_toString (s : jsstring) :
  hasBareE (e_toString ++ s) = hasBareE s.
Proof. reflexivity. Qed.

Lemma replace_e_head_digit (d : N) (s : jsstring) :
  JsString.isDigit d = true ->
  JsString.replace_e_not_digit e_toString (d :: s)
  = d :: JsString.replace_e_not_digit e_toString s.
Proof.
  intros H. cbn [JsString.replace_e_not_digit].
  destruct (N.eqb_spec d 101) as [->|_]; [discriminate H | reflexivity].
Qed.

Lemma replace_e_no_bare_e (s : jsstring) :
  hasBareE (JsString.replace_e_not_digit e_toString s) = false.
Proof.
  induction s as [|c s IH]; [reflexivity|].
  cbn [JsString.replace_e_not_digit].
  destruct (N.eqb_spec c 101) as [->|Hc]; cbn [andb].
  - destruct s as [|d s].
    + cbn [negb]. rewrite hasBareE_e_toString. exact IH.
    + destruct (JsString.isDigit d) eqn:D; cbn [negb].
      * rewrite replace_e_head_digit by exact D.
        rewrite replace_e_head_digit in IH by exact D.
        cbn [hasBareE]. cbn [hasBareE] in IH. rewrite D.
        cbn [negb]. rewrite andb_false_r. cbn [orb]. exact IH.
      * rewrite hasBareE_e_toString. exact IH.
  - cbn [hasBareE]. rewrite IH, orb_false_r.
    apply N.eqb_neq in Hc. rewrite Hc. reflexivity.
Qed.

Lemma replace_e_absent (s : jsstring) :
  hasBareE s = false -> JsString.replace_e_not_digit e_toString s = s.
Proof.
  induction s as [|c s IH]; intros H; [reflexivity|].
  cbn [hasBareE] in H. apply orb_false_iff in H. destruct H as [H1 H2].
  cbn [JsString.replace_e_not_digit]. rewrite H1, (IH H2). reflexivity.
Qed.

Lemma includes_pi_absent (s : jsstring) :
  ~ In 960%N s -> JsString.includes (lit "π") s = false.
Proof.
  change (lit "π") with [960%N].
  induction s as [|c s IH]; intros H; [reflexivity|].
  cbn [JsString.includes JsString.startsWith].
  rewrite IH by (intros X; apply H; right; exact X).
  destruct (N.eqb_spec 960 c) as [E|_]; [|reflexivity].
  exfalso. apply H. left. symmetry. exact E.
Qed.

(** X25: the replacement of the constants is complete: in its result no
    [π] is left and no [e] that is not followed by a digit, and applying
    it a second time changes nothing. *)
Theorem replaceConstants_complete :
  forall expression,
    ~ In 960%N (replaceConstants expression)
    /\ hasBareE (replaceConstants expression) = false
    /\ replaceConstants (replaceConstants expression)
       = replaceConstants expression.
Proof.
  intros expression.
  pose proof (replaceConstants_no_pi expression) as Hpi.
  assert (He : hasBareE (replaceConstants expression) = false)
    by apply replace_e_no_bare_e.
  split; [exact Hpi|]. split; [exact He|].
  unfold replaceConstants at 1.
  rewrite replaceAll_absent by (apply includes_pi_absent; exact Hpi).
  apply replace_e_absent. exact He.
Qed.

(** ** Display of strings that are not numbers *)

(** X26: a display that does not start with a number is shown as it
    is: when [parseFloat] finds no numeric prefix, [formatDisplay]
    returns its argument, whatever the runtime; the empty display and a
    lone minus sign are such strings. *)
Theorem formatDisplay_not_a_number :
  forall rt value,
    ParseFloat.decimalPrefix (ParseFloat.trimStart value) = None ->
    formatDisplay rt value = value.
Proof.
  intros rt value H. unfold formatDisplay, parseFloat. rewrite H.
  destruct (JsString.eqb value (lit "Error")); reflexivity.
Qed.

Lemma formatDisplay_not_a_number_witness :
  ParseFloat.decimalPrefix (ParseFloat.trimStart (lit "-")) = None
  /\ formatDisplay ExampleRuntime.rt (lit "-") = lit "-"
  /\ formatDisplay ExampleRuntime.rt (lit "") = lit "".
Proof.
  split; [reflexivity|]. split.
  - apply formatDisplay_not_a_number. reflexivity.
  - apply formatDisplay_not_a_number. reflexivity.
Defined.

Lemma replaceAll_pi_other (c : N) (s : jsstring) :
  c <> 960%N ->
  JsString.replaceAll (lit "π") pi_toString (c :: s)
  = c :: JsString.replaceAll (lit "π") pi_toString s.
Proof.
  intros H. change (lit "π") with [960%N].
  apply replaceAll_other_head. congruence.
Qed.

(** X27: which [e] is taken for the constant depends on what follows it
    after [π] has been replaced.  An [e] before a digit is kept; an [e]
    at the end, or before a code unit that is neither a digit nor [π],
    is replaced by the literal of e; an [e] before [π] is kept, because
    the literal that has replaced [π] starts with a digit. *)
Theorem replaceConstants_e :
  forall rest,
    (forall d, JsString.isDigit d = true ->
               replaceConstants (101%N :: d :: rest)
               = 101%N :: replaceConstants (d :: rest))
    /\ replaceConstants [101%N] = e_toString
    /\ (forall c, JsString.isDigit c = false -> c <> 960%N ->
                  replaceConstants (101%N :: c :: rest)
                  = e_toString ++ replaceConstants (c :: rest))
    /\ replaceConstants (101%N :: 960%N :: rest)
       = 101%N :: pi_toString ++ replaceConstants rest.
Proof.
  intros rest. split; [|split; [reflexivity | split]].
  - intros d D. unfold replaceConstants.
    assert (d <> 960%N) by (intros ->; discriminate D).
    rewrite (@replaceAll_pi_other 101) by discriminate.
    rewrite !replaceAll_pi_other by assumption.
    cbn [JsString.replace_e_not_digit]. rewrite D. reflexivity.
  - intros c D Hc. unfold replaceConstants.
    rewrite (@replaceAll_pi_other 101) by discriminate.
    rewrite !replaceAll_pi_other by assumption.
    cbn [JsString.replace_e_not_digit]. rewrite D. reflexivity.
  - unfold replaceConstants.
    rewrite (@replaceAll_pi_other 101) by discriminate.
    change (960%N :: rest) with (lit "π" ++ rest).
    rewrite replaceAll_match by discriminate.
    reflexivity.
Qed.

(** ** A display that is not a number *)

(** X28: the display can lose its number.  In a state without error
    whose display is one code unit other than [0] and [-], the sign key
    followed by Backspace leaves a lone minus sign in the display;
    [memoryAdd] then makes the memory [NaN], and the sign key pressed
    once more leaves the display empty. *)
Theorem display_lone_minus :
  forall rt prev c,
    hasError prev = false ->
    display prev = [c] -> c <> 48%N -> c <> 45%N ->
    display (backspace (toggleSign prev)) = lit "-"
    /\ memory (memoryAdd rt (backspace (toggleSign prev))) = nan
    /\ display (toggleSign (backspace (toggleSign prev))) = lit "".
Proof.
  intros rt [d e m a p w h] c E D H0 Hm.
  cbn [hasError display] in *. subst h d.
  apply N.eqb_neq in H0, Hm.
  assert (T : toggleSign (mkState [c] e m a p w false)
              = mkState [45%N; c] e m a p w false).
  { unfold toggleSign; cbn [hasError display].
    change (lit "0") with [48%N]. change (lit "-") with [45%N].
    cbn [JsString.eqb JsString.startsWith].
    rewrite H0. rewrite N.eqb_sym, Hm. reflexivity. }
  rewrite T.
  assert (B : backspace (mkState [45%N; c] e m a p w false)
              = mkState [45%N] (JsString.dropLast e) m a p w false)
    by reflexivity.
  rewrite B. split; [reflexivity|]. split.
  - unfold memoryAdd; cbn [memory display].
    change (parseFloat rt (orZero [45%N])) with nan. apply add_nan.
  - reflexivity.
Qed.

Lemma display_lone_minus_witness :
  let prev := insertNumber (lit "5") initialState in
  display prev = lit "5"
  /\ display (backspace (toggleSign prev)) = lit "-"
  /\ memory (memoryAdd ExampleRuntime.rt (backspace (toggleSign prev))) = nan.
Proof.
  intros prev. split; [reflexivity|].
  destruct (@display_lone_minus ExampleRuntime.rt prev 53%N)
    as [H1 [H2 _]]; try reflexivity; try discriminate.
  split; [exact H1 | exact H2].
Defined.
